(** * Data-warehouse loading scripts: Complaints.py and USDemographics.py

    A shallow embedding of the two batch pipelines of the repository and
    the properties of their row validator, structurer, persister and main
    flows.

    Python values are embedded as inductive types, dictionaries as stdpp
    finite maps, raised exceptions as an explicit result type, and the
    console, the database and the module namespace as a state that is
    threaded through the statements in program order. *)

From Stdlib Require Import ZArith String Ascii List Bool Lia DecimalString.
From stdpp Require Import base option list gmap strings.

Set Warnings "-register-all".

Local Open Scope Z_scope.
Local Open Scope string_scope.
Local Open Scope list_scope.

(** ** Python runtime: exceptions, values and builtins *)

Module Py.

(** The exception classes that the two scripts can meet.  All of them derive
    from [Exception]; [RequestException] is the one of the requests
    library. *)
Inductive exn_class :=
  | ValueError | TypeError | OverflowError | AttributeError | KeyError
  | NameError | OSError | RequestException | DatabaseError.

#[global] Instance exn_class_eq_dec : EqDecision exn_class.
Proof. solve_decision. Defined.

Record exn := Exn { exn_cls : exn_class; exn_msg : string }.

#[global] Instance exn_eq_dec : EqDecision exn.
Proof. solve_decision. Defined.

(** The outcome of evaluating an expression: a value or a raised exception. *)
Inductive result (A : Type) :=
  | Ok (a : A)
  | Raise (e : exn).
Arguments Ok {A} a.
Arguments Raise {A} e.

#[global] Instance result_ret : MRet result := fun _ a => Ok a.
#[global] Instance result_bind : MBind result := fun _ _ f m =>
  match m with Ok a => f a | Raise e => Raise e end.
#[global] Instance result_fmap : FMap result := fun _ _ f m =>
  match m with Ok a => Ok (f a) | Raise e => Raise e end.

Definition is_ok {A} (r : result A) : bool :=
  match r with Ok _ => true | Raise _ => false end.

Definition raise {A} (c : exn_class) (msg : string) : result A :=
  Raise (Exn c msg).

(** A Python float: not-a-number, an infinity, or the finite dyadic number
    [m * 2 ^ e] (both zeros are [FFin 0 _]). *)
Inductive pyfloat :=
  | FNaN
  | FInf (negative : bool)
  | FFin (m e : Z).

(** The values a source row can hold: what the CSV reader produces for a
    cell, and [None] for a key that is looked up and not there. *)
Inductive value :=
  | VNone
  | VBool (b : bool)
  | VInt (z : Z)
  | VFloat (f : pyfloat)
  | VStr (s : string).

#[global] Instance pyfloat_eq_dec : EqDecision pyfloat.
Proof. solve_decision. Defined.
#[global] Instance value_eq_dec : EqDecision value.
Proof. solve_decision. Defined.

(** [bool(v)]: [None], [False], zero and the empty string are falsy; every
    other value is truthy, not-a-number included. *)
Definition truthy (v : value) : bool :=
  match v with
  | VNone => false
  | VBool b => b
  | VInt z => negb (z =? 0)%Z
  | VFloat (FFin m _) => negb (m =? 0)%Z
  | VFloat _ => true
  | VStr s => negb (bool_decide (s = ""))
  end.

(** What [pd.to_datetime] returns for a scalar: a timestamp (calendar date
    and nanoseconds since midnight) or the missing-time marker [NaT]. *)
Inductive pdtime :=
  | Timestamp (year month day : Z) (nanos : Z)
  | NaT.

(** The library calls whose algorithms live outside the repository. *)
Class Library := {
  (** [repr] of the finite float [m * 2 ^ e] *)
  float_repr : Z -> Z -> string;
  (** [repr] of a string, as the message of [int] quotes its argument *)
  str_repr : string -> string;
  (** [int(s)] for a text with characters outside ASCII, where digits and
      white space are those of the Unicode database *)
  int_of_unicode : string -> result Z;
  (** [pd.to_datetime(v, errors='coerce')] *)
  to_datetime : value -> result pdtime;
  (** what [.date()] raises for a timestamp that [datetime.date] cannot
      hold *)
  date_range_error : exn;
  (** [str(row)] of a pandas row, as an f-string formats it *)
  series_repr : gmap string value -> string;
}.

(** *** [int(x)] *)

(** White space as [int] skips it at both ends of an ASCII text: tab, line
    feed, vertical tab, form feed, carriage return and the space. *)
Definition is_space (c : ascii) : bool :=
  let n := nat_of_ascii c in
  ((9 <=? n) && (n <=? 13) || (n =? 32))%nat.

Definition digit_of (c : ascii) : option Z :=
  let n := nat_of_ascii c in
  if ((48 <=? n) && (n <=? 57))%nat then Some (Z.of_nat (n - 48)) else None.

Fixpoint lstrip (s : string) : string :=
  match s with
  | String c rest => if is_space c then lstrip rest else s
  | EmptyString => EmptyString
  end.

Fixpoint string_rev_onto (s acc : string) : string :=
  match s with
  | String c rest => string_rev_onto rest (String c acc)
  | EmptyString => acc
  end.

Definition string_rev (s : string) : string := string_rev_onto s "".

Definition strip (s : string) : string :=
  string_rev (lstrip (string_rev (lstrip s))).

Fixpoint is_ascii_text (s : string) : bool :=
  match s with
  | String c rest => (nat_of_ascii c <? 128)%nat && is_ascii_text rest
  | EmptyString => true
  end.

(** Decimal digits, where one underscore may stand between two digits.
    [after_digit] tells whether the character just read was a digit. *)
Fixpoint int_digits (acc : Z) (after_digit : bool) (s : string) : option Z :=
  match s with
  | EmptyString => if after_digit then Some acc else None
  | String c rest =>
      match digit_of c with
      | Some d => int_digits (10 * acc + d) true rest
      | None =>
          if bool_decide (c = "_"%char) && after_digit
          then int_digits acc false rest
          else None
      end
  end.

(** The leading run of digits and underscores of a text, and what follows
    it. *)
Fixpoint digit_run (s : string) : string * string :=
  match s with
  | String c rest =>
      if bool_decide (c = "_"%char) || bool_decide (is_Some (digit_of c))
      then let '(run, tail) := digit_run rest in (String c run, tail)
      else (EmptyString, s)
  | EmptyString => (EmptyString, EmptyString)
  end.

Fixpoint count_digits (s : string) : nat :=
  match s with
  | String c rest =>
      ((if bool_decide (is_Some (digit_of c)) then 1 else 0)
       + count_digits rest)%nat
  | EmptyString => 0%nat
  end.

(** [sys.get_int_max_str_digits()], as the interpreter starts. *)
Definition int_max_str_digits : nat := 4300.

Inductive literal_outcome :=
  | Literal (z : Z)
  | InvalidLiteral
  | TooManyDigits (n : nat).

(** The digits are read first: a misplaced underscore makes the literal
    invalid, then the number of digits is held against the limit, and only
    then must the text be at its end. *)
Definition digits_outcome (body : string) : literal_outcome :=
  let '(run, tail) := digit_run body in
  match int_digits 0 false run with
  | None => InvalidLiteral
  | Some z =>
      if (int_max_str_digits <? count_digits run)%nat
      then TooManyDigits (count_digits run)
      else if bool_decide (tail = "") then Literal z else InvalidLiteral
  end.

Definition int_literal (s : string) : literal_outcome :=
  match strip s with
  | String "-" rest =>
      match digits_outcome rest with
      | Literal z => Literal (- z)
      | other => other
      end
  | String "+" rest => digits_outcome rest
  | body => digits_outcome body
  end.

Definition float_trunc (m e : Z) : Z :=
  if (0 <=? e)%Z then m * 2 ^ e else Z.quot m (2 ^ (- e)).

Definition str_of_Z (z : Z) : string := NilZero.string_of_int (Z.to_int z).

Definition py_int `{lib : Library} (v : value) : result Z :=
  match v with
  | VNone => raise TypeError "int() argument must be a string, a bytes-like object or a real number, not 'NoneType'"
  | VBool b => Ok (if b then 1 else 0)
  | VInt z => Ok z
  | VFloat FNaN => raise ValueError "cannot convert float NaN to integer"
  | VFloat (FInf _) => raise OverflowError "cannot convert float infinity to integer"
  | VFloat (FFin m e) => Ok (float_trunc m e)
  | VStr s =>
      if is_ascii_text s then
        match int_literal s with
        | Literal z => Ok z
        | InvalidLiteral =>
            raise ValueError
              ("invalid literal for int() with base 10: " +:+ str_repr s)
        | TooManyDigits n =>
            raise ValueError
              ("Exceeds the limit (4300 digits) for integer string conversion: value has "
               +:+ str_of_Z (Z.of_nat n)
               +:+ " digits; use sys.set_int_max_str_digits() to increase the limit")
        end
      else int_of_unicode s
  end.

(** *** [str(x)] *)

Definition py_str `{lib : Library} (v : value) : string :=
  match v with
  | VNone => "None"
  | VBool b => if b then "True" else "False"
  | VInt z => str_of_Z z
  | VFloat FNaN => "nan"
  | VFloat (FInf negative) => if negative then "-inf" else "inf"
  | VFloat (FFin m e) => float_repr m e
  | VStr s => s
  end.

(** *** Statements: a state and exception monad

    A statement runs in a world [W] and ends normally with a value or by
    raising; the effects done before a raise stay done. *)
Definition prog (W A : Type) : Type := W -> result A * W.

#[global] Instance prog_ret {W} : MRet (prog W) := fun _ a w => (Ok a, w).
#[global] Instance prog_bind {W} : MBind (prog W) := fun _ _ f m w =>
  match m w with
  | (Ok a, w') => f a w'
  | (Raise e, w') => (Raise e, w')
  end.

Definition lift {W A} (r : result A) : prog W A := fun w => (r, w).

(** [try: body except <classes>: handler e] *)
Definition try_except {W A} (catches : exn -> bool)
    (body : prog W A) (handler : exn -> prog W A) : prog W A := fun w =>
  match body w with
  | (Raise e, w') => if catches e then handler e w' else (Raise e, w')
  | other => other
  end.

(** [try: body finally: final] *)
Definition try_finally {W A} (body : prog W A) (final : prog W unit)
    : prog W A := fun w =>
  let '(r, w') := body w in
  match final w' with
  | (Ok _, w'') => (r, w'')
  | (Raise e, w'') => (Raise e, w'')
  end.

(** [for x in l: body x] *)
Fixpoint for_each {W A} (l : list A) (body : A -> prog W unit) : prog W unit :=
  match l with
  | [] => mret tt
  | x :: rest => body x ;; for_each rest body
  end.

(** [except Exception]: every modelled class derives from it. *)
Definition any_Exception (e : exn) : bool := true.
(** [except C] for a class without modelled subclasses. *)
Definition only (c : exn_class) (e : exn) : bool :=
  bool_decide (exn_cls e = c).

End Py.

(** ** Complaints.py: the consumer-complaints pipeline *)

Module Complaints.
Import Py.

(** The values of a cleaned row: [None], an [int], a [str], a
    [datetime.date], or pandas' [NaT]. *)
Inductive cvalue :=
  | CNone
  | CInt (z : Z)
  | CStr (s : string)
  | CDate (year month day : Z)
  | CNaT.

#[global] Instance cvalue_eq_dec : EqDecision cvalue.
Proof. solve_decision. Defined.

(** The parameters bound to one [INSERT] statement, in column order. *)
Definition params := list cvalue.

(** A parsed CSV file: the column names and one mapping per line. *)
Record DataFrame := { columns : list string; rows : list (gmap string value) }.

Inductive db_event :=
  | Connect (server database : string)
  | Execute (p : params)
  | Commit
  | Close.

(** What the script can observe and change: the console, the archive on
    disk, the committed contents of the [Complaints] table, and the open
    connection with the inserts of its transaction that are not committed
    yet ([None] when no connection is open).  [db_log] records the calls
    made to the database driver. *)
Record world := World {
  stdout : list string;
  zip_on_disk : bool;
  table : list params;
  conn : option (list params);
  db_log : list db_event;
}.

(** What the outside does when called: the download, the CSV reader, the
    database server accepting a connection, and the server accepting one
    insert given the rows its transaction sees. *)
Record environment := {
  http_get : result unit;
  (** whether a failed download has already created the local file *)
  http_partial_file : bool;
  read_csv : result DataFrame;
  db_connect : result unit;
  db_insert : list params -> params -> result unit;
}.

Record connection_params := { server : string; database : string }.

Definition DB_CONNECTION : connection_params :=
  {| server := "Your-server-name\Instance"; database := "Your-database-name" |}.

Definition the_columns : list string :=
  ["Complaint ID"; "Product"; "Issue"; "Company"; "State"; "Submitted via";
   "Date received"].

(** The keys of a cleaned row, in the order the dictionary display writes
    them. *)
Definition cleaned_keys : list string :=
  ["complaint_id"; "product"; "issue"; "company"; "state"; "submitted_via";
   "date_received"].

Section Pipeline.
Context `{lib : Library} (E : environment).

Definition put_line (s : string) (w : world) : world :=
  World (stdout w ++ [s]) (zip_on_disk w) (table w) (conn w) (db_log w).

Definition print (s : string) : prog world unit := fun w =>
  (Ok tt, put_line s w).

(** [row.get(k)]: the value, or [None] when the key is not there. *)
Definition get (row : gmap string value) (k : string) : value :=
  default VNone (row !! k).

(** [d[k]] on a dictionary *)
Definition subscript (d : gmap string cvalue) (k : string) : result cvalue :=
  match d !! k with
  | Some v => Ok v
  | None => raise KeyError k
  end.

(** [.date()] of what [pd.to_datetime] returned: the calendar date of a
    timestamp, when its year is one that [datetime.date] holds (1 to 9999),
    and [NaT] again for [NaT]. *)
Definition date_method (t : pdtime) : result cvalue :=
  match t with
  | Timestamp y m d _ =>
      if (1 <=? y)%Z && (y <=? 9999)%Z then Ok (CDate y m d)
      else Raise date_range_error
  | NaT => Ok CNaT
  end.

Definition cast_int (v : value) : result cvalue := CInt <$> py_int v.
Definition cast_str (v : value) : result cvalue := Ok (CStr (py_str v)).
Definition cast_date (v : value) : result cvalue :=
  t ← to_datetime v; date_method t.

(** [cast(row.get(k)) if row.get(k) else None] *)
Definition field (cast : value -> result cvalue) (row : gmap string value)
    (k : string) : result cvalue :=
  if truthy (get row k) then cast (get row k) else Ok CNone.

(** The rule table of the row validator: key of the cleaned row, source
    column, cast. *)
Definition rules : list (string * string * (value -> result cvalue)) :=
  [("complaint_id", "Complaint ID", cast_int);
   ("product", "Product", cast_str);
   ("issue", "Issue", cast_str);
   ("company", "Company", cast_str);
   ("state", "State", cast_str);
   ("submitted_via", "Submitted via", cast_str);
   ("date_received", "Date received", cast_date)].

(** The dictionary display of [clean_data]: the seven entries are evaluated
    in the order they are written, and the first cast that raises ends the
    evaluation. *)
Definition cleaned_dict (row : gmap string value)
    : result (gmap string cvalue) :=
  complaint_id ← field cast_int row "Complaint ID";
  product ← field cast_str row "Product";
  issue ← field cast_str row "Issue";
  company ← field cast_str row "Company";
  state ← field cast_str row "State";
  submitted_via ← field cast_str row "Submitted via";
  date_received ← field cast_date row "Date received";
  Ok (<["date_received" := date_received]>
      (<["submitted_via" := submitted_via]>
      (<["state" := state]>
      (<["company" := company]>
      (<["issue" := issue]>
      (<["product" := product]>
      (<["complaint_id" := complaint_id]> ∅))))))).

Definition clean_data (row : gmap string value)
    : prog world (option (gmap string cvalue)) :=
  try_except any_Exception
    (d ← lift (cleaned_dict row); mret (Some d))
    (fun e =>
       print ("Error cleaning row: " +:+ series_repr row +:+ " - " +:+ exn_msg e);;
       mret None).

(** *** The database driver *)

Definition set_conn (c : option (list params)) (ev : db_event) (w : world)
    : world :=
  World (stdout w) (zip_on_disk w) (table w) c (db_log w ++ [ev]).

(** [conn = pyodbc.connect(...)]: on success the variable [conn] names an
    open connection whose transaction is empty. *)
Definition connect (cp : connection_params) : prog world unit := fun w =>
  match db_connect E with
  | Ok _ => (Ok tt, set_conn (Some []) (Connect (server cp) (database cp)) w)
  | Raise e => (Raise e, set_conn (conn w) (Connect (server cp) (database cp)) w)
  end.

(** [cursor.execute("INSERT INTO Complaints ... VALUES (?, ...)", p)]: the
    row joins the open transaction, or the driver raises. *)
Definition execute (p : params) : prog world unit := fun w =>
  match conn w with
  | Some pending =>
      match db_insert E (table w ++ pending) p with
      | Ok _ => (Ok tt, set_conn (Some (pending ++ [p])) (Execute p) w)
      | Raise e => (Raise e, set_conn (Some pending) (Execute p) w)
      end
  | None => (raise DatabaseError "Attempt to use a closed connection.",
             set_conn None (Execute p) w)
  end.

(** [conn.commit()]: the rows of the transaction become table contents. *)
Definition commit : prog world unit := fun w =>
  match conn w with
  | Some pending =>
      (Ok tt, World (stdout w) (zip_on_disk w) (table w ++ pending) (Some [])
                    (db_log w ++ [Commit]))
  | None => (raise DatabaseError "Attempt to use a closed connection.",
             set_conn None Commit w)
  end.

(** [if conn: conn.close()]: closing discards what was not committed. *)
Definition close_if_open : prog world unit := fun w =>
  match conn w with
  | Some _ => (Ok tt, set_conn None Close w)
  | None => (Ok tt, w)
  end.

(** [bool(d)] of a dictionary *)
Definition dict_truthy (d : gmap string cvalue) : bool :=
  negb (bool_decide (d = ∅)).

(** The tuple of the seven subscripts passed to [cursor.execute]. *)
Definition insert_params (d : gmap string cvalue) : result params :=
  c1 ← subscript d "complaint_id";
  c2 ← subscript d "product";
  c3 ← subscript d "issue";
  c4 ← subscript d "company";
  c5 ← subscript d "state";
  c6 ← subscript d "submitted_via";
  c7 ← subscript d "date_received";
  Ok [c1; c2; c3; c4; c5; c6; c7].

(** One turn of the loop over [data.iterrows()]. *)
Definition insert_row (row : gmap string value) : prog world unit :=
  cleaned_row ← clean_data row;
  match cleaned_row with
  | Some d =>
      if dict_truthy d then p ← lift (insert_params d); execute p
      else mret tt
  | None => mret tt
  end.

Definition store_data_in_sql (data : DataFrame) (cp : connection_params)
    : prog world unit :=
  try_finally
    (try_except any_Exception
       (print "Connecting to the database...";;
        connect cp;;
        print "Inserting data into the database...";;
        for_each (rows data) insert_row;;
        commit;;
        print "Data stored successfully.")
       (fun e => print ("Error storing data in SQL Server: " +:+ exn_msg e)))
    close_if_open.

(** *** Fetching and structuring *)

Definition set_zip (b : bool) (w : world) : world :=
  World (stdout w) b (table w) (conn w) (db_log w).

(** [requests.get], [raise_for_status] and the loop writing the chunks. *)
Definition http_download : prog world unit := fun w =>
  match http_get E with
  | Ok _ => (Ok tt, set_zip true w)
  | Raise e => (Raise e, set_zip (zip_on_disk w || http_partial_file E) w)
  end.

Definition download_csv_file (output_file : string) : prog world unit :=
  try_except (only RequestException)
    (print "Downloading CSV file...";;
     http_download;;
     print ("File downloaded: " +:+ output_file))
    (fun e => print ("Error downloading CSV file: " +:+ exn_msg e)).

Definition extract_and_read_csv : prog world (option DataFrame) :=
  try_except any_Exception
    (print "Extracting CSV file...";;
     extracted_file ← lift (read_csv E);
     print "CSV file extracted and read.";;
     mret (Some extracted_file))
    (fun e =>
       print ("Error extracting and reading CSV file: " +:+ exn_msg e);;
       mret None).

(** [data[[c1, ..., cn]]]: the listed columns, or [KeyError] when one of
    them is not a column of the frame. *)
Definition select_columns (cols : list string) (data : DataFrame)
    : result DataFrame :=
  if forallb (fun c => bool_decide (c ∈ columns data)) cols
  then Ok {| columns := cols;
             rows := (fun r => filter (fun kv => kv.1 ∈ cols) r) <$> rows data |}
  else raise KeyError "not in index".

(** [if os.path.exists(zip_file): os.remove(zip_file); print(...)] *)
Definition clean_up : prog world unit := fun w =>
  if zip_on_disk w then print "Temporary files cleaned up." (set_zip false w)
  else (Ok tt, w).

Definition main : prog world unit :=
  let zip_file := "complaints.csv.zip" in
  download_csv_file zip_file;;
  data ← extract_and_read_csv;
  match data with
  | Some data =>
      print "Processing data for storage...";;
      data ← lift (select_columns the_columns data);
      store_data_in_sql data DB_CONNECTION
  | None => print "No data to store."
  end;;
  clean_up.

(** *** Vocabulary for the persister's properties *)

(** The parameters the loop binds for a row, when the row is kept. *)
Definition cleaned_params (row : gmap string value) : option params :=
  match cleaned_dict row ≫= insert_params with
  | Ok p => Some p
  | Raise _ => None
  end.

(** The inserts a batch asks for, in the order of its rows. *)
Definition batch_params (batch : list (gmap string value)) : list params :=
  omap cleaned_params batch.

(** The lines printed for the rows of a batch that are dropped. *)
Definition dropped_line (row : gmap string value) : option string :=
  match cleaned_dict row with
  | Ok _ => None
  | Raise e =>
      Some ("Error cleaning row: " +:+ series_repr row +:+ " - " +:+ exn_msg e)
  end.

Definition dropped_lines (batch : list (gmap string value)) : list string :=
  omap dropped_line batch.

(** The server accepts the inserts [ps] one after the other, when its
    transaction already sees the rows [seen]. *)
Fixpoint accepted (seen : list params) (ps : list params) : Prop :=
  match ps with
  | [] => True
  | p :: rest => db_insert E seen p = Ok tt /\ accepted (seen ++ [p]) rest
  end.

End Pipeline.

(** *** A reference library

    Calendar dates written [YYYY-MM-DD] parse to their timestamp at
    midnight and every other string is coerced to [NaT], as
    [pd.to_datetime(s, errors='coerce')] does for such strings.  The
    instance is used on rows of ASCII strings only: its [float_repr] and
    its [int_of_unicode] are stand-ins that such rows never reach. *)

Definition is_leap (y : Z) : bool :=
  (y mod 4 =? 0)%Z && (negb (y mod 100 =? 0)%Z || (y mod 400 =? 0)%Z).

Definition days_in_month (y m : Z) : Z :=
  if (m =? 2)%Z then (if is_leap y then 29 else 28)
  else if bool_decide (m ∈ [4; 6; 9; 11]) then 30 else 31.

Definition iso_date (s : string) : option (Z * Z * Z) :=
  match s with
  | String y1 (String y2 (String y3 (String y4 (String "-" (String m1
      (String m2 (String "-" (String d1 (String d2 EmptyString))))))))) =>
      a ← digit_of y1; b ← digit_of y2; c ← digit_of y3; d ← digit_of y4;
      e ← digit_of m1; f ← digit_of m2; g ← digit_of d1; h ← digit_of d2;
      let y := 1000 * a + 100 * b + 10 * c + d in
      let m := 10 * e + f in
      let dd := 10 * g + h in
      if (1 <=? m)%Z && (m <=? 12)%Z && (1 <=? dd)%Z
         && (dd <=? days_in_month y m)%Z
      then Some (y, m, dd) else None
  | _ => None
  end.

Definition iso_library : Library := {|
  float_repr := fun m e => str_of_Z m +:+ "*2**" +:+ str_of_Z e;
  str_repr := fun s => "'" +:+ s +:+ "'";
  int_of_unicode := fun s =>
    raise ValueError ("invalid literal for int() with base 10: '" +:+ s +:+ "'");
  to_datetime := fun v =>
    match v with
    | VStr s =>
        match iso_date s with
        | Some (y, m, d) => Ok (Timestamp y m d 0)
        | None => Ok NaT
        end
    | _ => Ok NaT
    end;
  date_range_error := Exn ValueError "year is out of range";
  series_repr := fun _ => "<row>";
|}.

(** A database server that takes every connection and every insert, a
    download and a CSV file that give the batch [data]. *)
Definition plain_environment (data : DataFrame) : environment := {|
  http_get := Ok tt;
  http_partial_file := false;
  read_csv := Ok data;
  db_connect := Ok tt;
  db_insert := fun _ _ => Ok tt;
|}.

(** A server that raises on the insert it receives when its transaction
    sees [n] rows, and takes every other one. *)
Definition rejecting_environment (n : nat) (data : DataFrame) : environment := {|
  http_get := Ok tt;
  http_partial_file := false;
  read_csv := Ok data;
  db_connect := Ok tt;
  db_insert := fun seen _ =>
    if (length seen =? n)%nat
    then raise DatabaseError "The INSERT statement failed."
    else Ok tt;
|}.

(** An archive that cannot be read. *)
Definition corrupt_environment : environment := {|
  http_get := Ok tt;
  http_partial_file := false;
  read_csv := raise ValueError "File is not a zip file";
  db_connect := Ok tt;
  db_insert := fun _ _ => Ok tt;
|}.

Definition fresh_world : world := World [] false [] None [].

(** The identifier column of the [Complaints] table. *)
Definition complaint_ids (t : list params) : list cvalue :=
  (fun p => default CNone (p !! 0%nat)) <$> t.

(** The rows the specification gives as examples. *)
Definition loan_row : gmap string value :=
  {[ "Complaint ID" := VStr "123"; "Product" := VStr "Loan";
     "Date received" := VStr "2021-01-05" ]}.


Definition bad_date_row : gmap string value :=
  {[ "Date received" := VStr "not-a-date" ]}.

Definition bad_id_row : gmap string value :=
  {[ "Complaint ID" := VStr "abc" ]}.


Definition three_loans : DataFrame :=
  {| columns := the_columns; rows := [loan_row; loan_row; loan_row] |}.

Definition loan_params : params :=
  [CInt 123; CStr "Loan"; CNone; CNone; CNone; CNone; CDate 2021 1 5].

End Complaints.

(** ** USDemographics.py: the county-demographics pipeline *)

Module USDemographics.
Import Py.

(** What [json.load] returns: [None], a [bool], an [int], a [float], a
    [str], a [list] or a [dict].  A dictionary is kept as the list of its
    items; looking a key up takes the first item that has it. *)
Inductive json :=
  | JNull
  | JBool (b : bool)
  | JInt (z : Z)
  | JFloat (f : pyfloat)
  | JStr (s : string)
  | JList (items : list json)
  | JObj (items : list (string * json)).

Fixpoint assoc (k : string) (items : list (string * json)) : option json :=
  match items with
  | [] => None
  | (k', v) :: rest => if bool_decide (k' = k) then Some v else assoc k rest
  end.

Definition type_name (o : json) : string :=
  match o with
  | JNull => "NoneType"
  | JBool _ => "bool"
  | JInt _ => "int"
  | JFloat _ => "float"
  | JStr _ => "str"
  | JList _ => "list"
  | JObj _ => "dict"
  end.

(** [o.get(k, d)]: only a dictionary has the method. *)
Definition py_get (o : json) (k : string) (d : json) : result json :=
  match o with
  | JObj items => Ok (default d (assoc k items))
  | _ => raise AttributeError
           ("'" +:+ type_name o +:+ "' object has no attribute 'get'")
  end.

(** [o.get(k1, {}).get(k2, {}) ... .get(kn, {})] *)
Fixpoint get_chain (o : json) (path : list string) : result json :=
  match path with
  | [] => Ok o
  | k :: rest => o' ← py_get o k (JObj []); get_chain o' rest
  end.

(** [o.get(k1, {}) ... .get(kn, {}).get(last)] *)
Definition dig (o : json) (path : list string) (last : string) : result json :=
  o' ← get_chain o path; py_get o' last JNull.

Definition age_groups : list string :=
  ["0_4"; "5_9"; "10_14"; "15_19"; "20_24"; "25_29";
   "30_34"; "35_39"; "40_44"; "45_49"; "50_54"; "55_59";
   "60_64"; "65_69"; "70_74"; "75_79"; "80_84"; "85_Plus"].

Definition column_2019 (group : string) : string :=
  "population_" +:+ group +:+ "_2019".
Definition column_2010 (group : string) : string :=
  "population_" +:+ group +:+ "_2010_census".

(** The dictionary display [base_info = {...}]. *)
Definition base_info_of (record : json) : result (gmap string json) :=
  zipcode ← py_get record "zipcode" JNull;
  major_city ← py_get record "major_city" JNull;
  state ← py_get record "state" JNull;
  lat ← py_get record "lat" JNull;
  lng ← py_get record "lng" JNull;
  county ← py_get record "county" JNull;
  population_2010_census ←
    dig record ["population_by_gender"; "summary"; "total"] "2010_census";
  population_2019 ←
    dig record ["population_by_gender"; "summary"; "total"] "2019";
  median_age_total_2019 ← dig record ["median_age"; "total"] "2019";
  median_age_male_2019 ← dig record ["median_age"; "male"] "2019";
  median_age_female_2019 ← dig record ["median_age"; "female"] "2019";
  Ok (<["median_age_female_2019" := median_age_female_2019]>
      (<["median_age_male_2019" := median_age_male_2019]>
      (<["median_age_total_2019" := median_age_total_2019]>
      (<["population_2019" := population_2019]>
      (<["population_2010_census" := population_2010_census]>
      (<["county" := county]>
      (<["lng" := lng]>
      (<["lat" := lat]>
      (<["state" := state]>
      (<["major_city" := major_city]>
      (<["zipcode" := zipcode]> ∅))))))))))).

(** [for group in age_groups: ...], updating [base_info]. *)
Fixpoint age_group_loop (record : json) (groups : list string)
    (base_info : gmap string json) : result (gmap string json) :=
  match groups with
  | [] => Ok base_info
  | group :: rest =>
      group_data ← get_chain record ["population_by_age"; "total"; group];
      v2019 ← py_get group_data "2019" JNull;
      v2010 ← py_get group_data "2010_census" JNull;
      age_group_loop record rest
        (<[column_2010 group := v2010]>
           (<[column_2019 group := v2019]> base_info))
  end.

(** The body of [for record in data]: the flattened record. *)
Definition flatten_record (record : json) : result (gmap string json) :=
  base_info ← base_info_of record;
  age_group_loop record age_groups base_info.

(** [for record in data: ...; records.append(base_info)] *)
Fixpoint record_loop (data : list json) (records : list (gmap string json))
    : result (list (gmap string json)) :=
  match data with
  | [] => Ok records
  | record :: rest =>
      base_info ← flatten_record record;
      record_loop rest (records ++ [base_info])
  end.

(** The argument of [pd.DataFrame(records)]: the list of flattened
    dictionaries, one per row of the frame and in the order of its rows,
    with the keys that become its columns.  What pandas then does to the
    cells of a column (an integer beside a missing value becomes a float,
    [None] becomes not-a-number) is not part of this type: a frame stands
    here for the records it is built from. *)
Definition DataFrame := list (gmap string json).

Definition json_to_dataframe (data : json) : result DataFrame :=
  match data with
  | JList items => record_loop items []
  | _ => raise ValueError "Expected JSON data to be a list of records."
  end.

(** *** The main flow *)

(** The configuration is a dictionary from which [save_to_sql] reads three
    keys. *)
Definition DB_CONNECTION : gmap string string :=
  {[ "server" := "DR-FOUOTSA\SQLEXPRESS01"; "database" := "DataPipelineDB";
     "trusted_connection" := "yes" ]}.

(** [db_config[k]] *)
Definition config_item (db_config : gmap string string) (k : string)
    : result string :=
  match db_config !! k with
  | Some v => Ok v
  | None => raise KeyError ("'" +:+ k +:+ "'")
  end.

(** The f-string of [save_to_sql], its three subscripts read from left to
    right. *)
Definition connection_string_of (db_config : gmap string string)
    : result string :=
  server ← config_item db_config "server";
  database ← config_item db_config "database";
  trusted ← config_item db_config "trusted_connection";
  Ok ("mssql+pyodbc://@" +:+ server +:+ "/" +:+ database +:+ "?"
      +:+ "driver=ODBC+Driver+17+for+SQL+Server&trusted_connection="
      +:+ trusted).

(** The console, the module-level name [df] ([None] while it is not
    assigned), the destination table, and the bulk writes that were asked
    for. *)
Record world := World {
  stdout : list string;
  name_df : option DataFrame;
  sql_table : option DataFrame;
  sql_writes : list (string * DataFrame);
}.

(** The outside: the dataset download, reading and decoding the JSON file
    under a path, the bulk write, and the text of [df.head()]. *)
Record environment := {
  dataset_download : result string;
  json_load : string -> result json;
  to_sql : result unit;
  head_repr : DataFrame -> string;
}.

Section Pipeline.
Context (E : environment).

Definition print (s : string) : prog world unit := fun w =>
  (Ok tt, World (stdout w ++ [s]) (name_df w) (sql_table w) (sql_writes w)).

(** [df = ...] at module level *)
Definition assign_df (df : DataFrame) : prog world unit := fun w =>
  (Ok tt, World (stdout w) (Some df) (sql_table w) (sql_writes w)).

(** Reading the name [df] *)
Definition load_df : prog world DataFrame := fun w =>
  match name_df w with
  | Some df => (Ok df, w)
  | None => (raise NameError "name 'df' is not defined", w)
  end.

Definition download_dataset : prog world string :=
  path ← lift (dataset_download E);
  print ("Path to dataset files: " +:+ path);;
  mret path.

Definition load_json_from_kaggle (path : string) : prog world json :=
  let json_file_path := path +:+ "/us_county_demographics.json" in
  lift (json_load E json_file_path).

(** [engine = create_engine(connection_string)] and
    [df.to_sql(table_name, engine, if_exists='replace', index=False)] *)
Definition to_sql_replace (connection_string : string) (df : DataFrame)
    (table_name : string) : prog world unit := fun w =>
  match to_sql E with
  | Ok _ => (Ok tt, World (stdout w) (name_df w) (Some df)
                          (sql_writes w ++ [(table_name, df)]))
  | Raise e => (Raise e, World (stdout w) (name_df w) (sql_table w)
                               (sql_writes w ++ [(table_name, df)]))
  end.

Definition save_to_sql (df : DataFrame) (table_name : string)
    (db_config : gmap string string) : prog world unit :=
  connection_string ← lift (connection_string_of db_config);
  try_except any_Exception
    (to_sql_replace connection_string df table_name;;
     print ("Data successfully saved to table: " +:+ table_name))
    (fun e => print ("Error saving to SQL: " +:+ exn_msg e)).

Definition main : prog world unit :=
  dataset_path ← download_dataset;
  json_data ← load_json_from_kaggle dataset_path;
  try_except (only ValueError)
    (df ← lift (json_to_dataframe json_data);
     assign_df df;;
     print (head_repr E df))
    (fun e => print ("Error transforming JSON to DataFrame: " +:+ exn_msg e));;
  let table_name := "USCountyDemographicsDetailed" in
  df ← load_df;
  save_to_sql df table_name DB_CONNECTION.

End Pipeline.

(** *** Vocabulary for the structurer's properties *)


(** Walking [path] from [o] for as long as the keys are there, every value
    met is a dictionary. *)
Fixpoint objects_along (o : json) (path : list string) : bool :=
  match o with
  | JObj items =>
      match path with
      | [] => true
      | k :: rest =>
          match assoc k items with
          | None => true
          | Some o' => objects_along o' rest
          end
      end
  | _ => false
  end.

(** The flattened columns with the path each one is read from. *)
Definition base_columns : list (string * (list string * string)) :=
  [("zipcode", ([], "zipcode"));
   ("major_city", ([], "major_city"));
   ("state", ([], "state"));
   ("lat", ([], "lat"));
   ("lng", ([], "lng"));
   ("county", ([], "county"));
   ("population_2010_census",
      (["population_by_gender"; "summary"; "total"], "2010_census"));
   ("population_2019",
      (["population_by_gender"; "summary"; "total"], "2019"));
   ("median_age_total_2019", (["median_age"; "total"], "2019"));
   ("median_age_male_2019", (["median_age"; "male"], "2019"));
   ("median_age_female_2019", (["median_age"; "female"], "2019"))].

Definition group_columns (group : string)
    : list (string * (list string * string)) :=
  [(column_2019 group, (["population_by_age"; "total"; group], "2019"));
   (column_2010 group, (["population_by_age"; "total"; group], "2010_census"))].

Definition extraction_paths : list (string * (list string * string)) :=
  base_columns ++ (age_groups ≫= group_columns).

(** A record on which no [.get] is called on something else than a
    dictionary. *)
Definition well_shaped (record : json) : bool :=
  forallb (fun c => objects_along record c.2.1) extraction_paths.

(** *** Example payloads *)

Definition young_record : json :=
  JObj [("population_by_age",
         JObj [("total", JObj [("0_4", JObj [("2019", JInt 120)])])])].

Definition null_level_record : json :=
  JObj [("zipcode", JStr "00501"); ("population_by_gender", JNull)].

Definition good_environment (data : json) : environment := {|
  dataset_download := Ok "/kaggle/input";
  json_load := fun _ => Ok data;
  to_sql := Ok tt;
  head_repr := fun _ => "<head>";
|}.

Definition fresh_world : world := World [] None None [].

End USDemographics.

(** ** Further inputs for the complaints pipeline *)

Module ComplaintsCases.
Import Py Complaints.

(** A server that refuses the connection. *)
Definition offline_environment (data : DataFrame) : environment := {|
  http_get := Ok tt;
  http_partial_file := false;
  read_csv := Ok data;
  db_connect := raise DatabaseError "Login timeout expired";
  db_insert := fun _ _ => Ok tt;
|}.

(** A file with one more column than the seven that are loaded. *)
Definition wide_row : gmap string value :=
  <["ZIP code" := VStr "90210"]> loan_row.

Definition wide_frame : DataFrame :=
  {| columns := the_columns ++ ["ZIP code"]; rows := [wide_row; wide_row] |}.

(** A file that lacks five of the seven columns. *)
Definition narrow_frame : DataFrame :=
  {| columns := ["Complaint ID"; "Product"];
     rows := [{[ "Complaint ID" := VStr "123"; "Product" := VStr "Loan" ]}] |}.

(** A batch whose second row has an identifier that [int] rejects. *)
Definition mixed_frame : DataFrame :=
  {| columns := the_columns; rows := [loan_row; bad_id_row; loan_row] |}.

(** Rows with cells the CSV reader left empty: not-a-number. *)
Definition no_id_row : gmap string value :=
  {[ "Complaint ID" := VFloat FNaN; "Product" := VStr "Loan" ]}.

Definition no_product_row : gmap string value :=
  {[ "Complaint ID" := VInt 7; "Product" := VFloat FNaN ]}.

(** A row dated in the year 0, which a timestamp holds and a
    [datetime.date] does not. *)
Definition year_zero_row : gmap string value :=
  {[ "Complaint ID" := VStr "123"; "Date received" := VStr "0000-01-01" ]}.

End ComplaintsCases.

(** ** Further vocabulary and inputs for the demographics pipeline *)

Module USDemographicsCases.
Import Py USDemographics.

(** The value stored under a path of keys, walking through dictionaries
    only; [None] when a key is not there or a value on the way is not a
    dictionary. *)
Fixpoint value_at (o : json) (path : list string) : option json :=
  match path with
  | [] => Some o
  | k :: rest =>
      match o with
      | JObj items => o' ← assoc k items; value_at o' rest
      | _ => None
      end
  end.

Definition county_record : json :=
  JObj [("zipcode", JStr "00501"); ("county", JStr "Suffolk");
        ("unused", JList [JInt 1; JInt 2]);
        ("median_age", JObj [("total", JObj [("2019", JFloat (FFin 77 (-1)))])]);
        ("population_by_age",
         JObj [("total", JObj [("85_Plus", JObj [("2010_census", JInt 3)])])])].


Definition no_dataset_environment : environment := {|
  dataset_download := raise OSError "dataset not found";
  json_load := fun _ => Ok (JList []);
  to_sql := Ok tt;
  head_repr := fun _ => "<head>";
|}.

Definition no_file_environment : environment := {|
  dataset_download := Ok "/kaggle/input";
  json_load := fun _ => raise OSError "No such file or directory";
  to_sql := Ok tt;
  head_repr := fun _ => "<head>";
|}.

(** The frame and the row the structurer builds from the example records. *)
Definition county_frame : DataFrame :=
  match json_to_dataframe (JList [county_record; young_record]) with
  | Ok frame => frame
  | Raise _ => []
  end.

Definition county_row : gmap string json :=
  match flatten_record county_record with
  | Ok row => row
  | Raise _ => ∅
  end.

End USDemographicsCases.

(** ** Properties of the complaints pipeline *)

Module ComplaintsTheory.
Import Py Complaints.

Section RowValidator.
Context `{lib : Library}.

(** [clean_data] either returns the dictionary unchanged in the world it
    started in, or prints one line and returns [None]. *)
Lemma clean_data_run (row : gmap string value) (w : world) :
  clean_data row w =
    match cleaned_dict row with
    | Ok d => (Ok (Some d), w)
    | Raise e =>
        (Ok None,
         put_line ("Error cleaning row: " +:+ series_repr row +:+ " - "
                   +:+ exn_msg e) w)
    end.
Proof.
  unfold clean_data, try_except, lift, print, mbind, prog_bind, mret, prog_ret.
  destruct (cleaned_dict row); reflexivity.
Qed.

(** The dictionary display: when no cast raises, the result holds the value
    of each entry under its key. *)
Lemma cleaned_dict_Ok (row : gmap string value) (d : gmap string cvalue) :
  cleaned_dict row = Ok d ->
  exists c1 c2 c3 c4 c5 c6 c7,
    field cast_int row "Complaint ID" = Ok c1 /\
    field cast_str row "Product" = Ok c2 /\
    field cast_str row "Issue" = Ok c3 /\
    field cast_str row "Company" = Ok c4 /\
    field cast_str row "State" = Ok c5 /\
    field cast_str row "Submitted via" = Ok c6 /\
    field cast_date row "Date received" = Ok c7 /\
    d = <["date_received" := c7]> (<["submitted_via" := c6]>
        (<["state" := c5]> (<["company" := c4]> (<["issue" := c3]>
        (<["product" := c2]> (<["complaint_id" := c1]> ∅)))))).
Proof.
  unfold cleaned_dict, mbind, result_bind. intros Hd.
  destruct (field cast_int row "Complaint ID") as [c1|]; [|discriminate].
  destruct (field cast_str row "Product") as [c2|]; [|discriminate].
  destruct (field cast_str row "Issue") as [c3|]; [|discriminate].
  destruct (field cast_str row "Company") as [c4|]; [|discriminate].
  destruct (field cast_str row "State") as [c5|]; [|discriminate].
  destruct (field cast_str row "Submitted via") as [c6|]; [|discriminate].
  destruct (field cast_date row "Date received") as [c7|]; [|discriminate].
  injection Hd as <-. by exists c1, c2, c3, c4, c5, c6, c7.
Qed.

Lemma cleaned_dict_dom (row : gmap string value) (d : gmap string cvalue) :
  cleaned_dict row = Ok d ->
  dom d = (list_to_set cleaned_keys : gset string).
Proof.
  intros (c1 & c2 & c3 & c4 & c5 & c6 & c7 & _ & _ & _ & _ & _ & _ & _ & ->)
    %cleaned_dict_Ok.
  rewrite !dom_insert_L, dom_empty_L. unfold cleaned_keys. set_solver.
Qed.

(** C1. Whatever the row, [clean_data] returns normally, and what it returns
    is [None] or a dictionary whose keys are exactly [complaint_id],
    [product], [issue], [company], [state], [submitted_via] and
    [date_received]. *)
Theorem clean_data_exactly_seven_keys (row : gmap string value) (w : world) :
  exists r w', clean_data row w = (Ok r, w') /\
    match r with
    | None => True
    | Some d =>
        dom d = ({[ "complaint_id"; "product"; "issue"; "company"; "state";
                    "submitted_via"; "date_received" ]} : gset string)
        /\ size d = 7%nat
    end.
Proof.
  rewrite clean_data_run.
  destruct (cleaned_dict row) as [d|e] eqn:Hd.
  - exists (Some d), w. split; [done|].
    apply cleaned_dict_dom in Hd.
    assert (Hdom : dom d = ({[ "complaint_id"; "product"; "issue"; "company";
      "state"; "submitted_via"; "date_received" ]} : gset string)).
    { rewrite Hd. unfold cleaned_keys. set_solver. }
    split; [done|].
    rewrite <- size_dom, Hdom. by vm_compute.
  - eexists None, _. by split.
Qed.

Lemma cleaned_dict_lookups (row : gmap string value) (d : gmap string cvalue) :
  cleaned_dict row = Ok d ->
  forall key src cast, (key, src, cast) ∈ rules ->
    exists v, field cast row src = Ok v /\ d !! key = Some v.
Proof.
  intros (c1 & c2 & c3 & c4 & c5 & c6 & c7 & H1 & H2 & H3 & H4 & H5 & H6 & H7
          & ->)%cleaned_dict_Ok key src cast Hin.
  unfold rules in Hin.
  repeat (apply elem_of_cons in Hin as [[= -> -> ->]|Hin];
          [eexists; split; [eassumption|by simplify_map_eq] |]).
  by apply elem_of_nil in Hin.
Qed.

Lemma cast_str_Ok (v : value) : cast_str v = Ok (CStr (py_str v)).
Proof. reflexivity. Qed.

(** A cast of the table that raises on its truthy source value makes the
    dictionary display raise (with the exception of that cast or of an
    earlier one). *)
Lemma cleaned_dict_Raise (row : gmap string value) key src cast e :
  (key, src, cast) ∈ rules ->
  truthy (get row src) = true ->
  cast (get row src) = Raise e ->
  exists e', cleaned_dict row = Raise e'.
Proof.
  intros Hin Ht He.
  destruct (cleaned_dict row) as [d|e'] eqn:Hd; [|by exists e'].
  destruct (cleaned_dict_lookups _ _ Hd _ _ _ Hin) as (v & Hf & _).
  unfold field in Hf. rewrite Ht, He in Hf. discriminate.
Qed.

(** C4. When the cast of any of the seven fields raises on its (truthy)
    source value, [clean_data] returns [None] to its caller: the row is
    dropped, one line is printed, and nothing is raised. *)
Theorem clean_data_cast_error_drops_row
    (row : gmap string value) (w : world) key src cast e :
  (key, src, cast) ∈ rules ->
  truthy (get row src) = true ->
  cast (get row src) = Raise e ->
  exists e',
    clean_data row w =
      (Ok None,
       put_line ("Error cleaning row: " +:+ series_repr row +:+ " - "
                 +:+ exn_msg e') w).
Proof.
  intros Hin Ht He.
  destruct (cleaned_dict_Raise row _ _ _ _ Hin Ht He) as [e' He'].
  exists e'. by rewrite clean_data_run, He'.
Qed.


(** C2. What the code does with a date it cannot parse.  A row whose
    [Date received] is truthy and is coerced to [NaT] by the date parser,
    and whose [Complaint ID] is falsy or accepted by [int], is kept, as the
    claim says; but its [date_received] is pandas' [NaT] ([NaT.date()] is
    [NaT] again), not the [None] that the claim asks for and that the other
    branch of the same entry gives for a falsy value. *)
Theorem clean_data_unparsable_date_kept (row : gmap string value) (w : world) :
  truthy (get row "Date received") = true ->
  to_datetime (get row "Date received") = Ok NaT ->
  truthy (get row "Complaint ID") = false
    \/ is_ok (py_int (get row "Complaint ID")) = true ->
  exists d, clean_data row w = (Ok (Some d), w)
    /\ d !! "date_received" = Some CNaT
    /\ d !! "date_received" <> Some CNone.
Proof.
  intros Ht Hnat Hid. rewrite clean_data_run.
  unfold cleaned_dict, field at 1 7, cast_int, cast_date, cast_str.
  rewrite Ht, Hnat.
  assert (exists c, (if truthy (get row "Complaint ID")
            then CInt <$> py_int (get row "Complaint ID") else Ok CNone) = Ok c)
    as [c ->].
  { destruct Hid as [->|Hok]; [by eexists|].
    destruct (truthy (get row "Complaint ID")); [|by eexists].
    destruct (py_int _) as [z|]; [by exists (CInt z)|discriminate]. }
  unfold field.
  destruct (truthy (get row "Product")), (truthy (get row "Issue")),
    (truthy (get row "Company")), (truthy (get row "State")),
    (truthy (get row "Submitted via")); cbn;
    (eexists; split; [reflexivity|by simplify_map_eq]).
Qed.

(** A date that the parser reads as a timestamp of a year that
    [datetime.date] cannot hold makes [.date()] raise. *)
Lemma cast_date_out_of_range (v : value) (y m d nanos : Z) :
  to_datetime v = Ok (Timestamp y m d nanos) ->
  (y < 1 \/ 9999 < y)%Z ->
  cast_date v = Raise date_range_error.
Proof.
  intros Hparse Hy. unfold cast_date. rewrite Hparse. cbn.
  destruct (1 <=? y)%Z eqn:H1; destruct (y <=? 9999)%Z eqn:H2; cbn; try done.
  apply Z.leb_le in H1, H2. lia.
Qed.

End RowValidator.

(** *** The persister *)

(** Two worlds written with different bracketing of their lists. *)
Ltac same_world :=
  unfold set_conn, put_line, set_zip; cbn;
  rewrite <- ?app_assoc; cbn; reflexivity.

Section Persister.
Context `{lib : Library} (E : environment).

Lemma bind_run {A B} (m : prog world A) (f : A -> prog world B) (w : world) :
  (m ≫= f) w =
    match m w with
    | (Ok a, w') => f a w'
    | (Raise e, w') => (Raise e, w')
    end.
Proof. reflexivity. Qed.

Lemma for_each_cons {A} (x : A) (l : list A) (body : A -> prog world unit)
    (w : world) :
  for_each (x :: l) body w =
    match body x w with
    | (Ok _, w') => for_each l body w'
    | (Raise e, w') => (Raise e, w')
    end.
Proof. reflexivity. Qed.

Lemma for_each_app {A} (l1 l2 : list A) (body : A -> prog world unit)
    (w : world) :
  for_each (l1 ++ l2) body w =
    match for_each l1 body w with
    | (Ok _, w') => for_each l2 body w'
    | (Raise e, w') => (Raise e, w')
    end.
Proof.
  revert w. induction l1 as [|x l1 IH]; intros w; [done|].
  rewrite <- app_comm_cons, !for_each_cons.
  destruct (body x w) as [[[]|e] w1]; [apply IH|done].
Qed.

(** A cleaned row is a non-empty dictionary, and its seven subscripts are
    all there. *)
Lemma cleaned_dict_params (row : gmap string value) (d : gmap string cvalue) :
  cleaned_dict row = Ok d ->
  dict_truthy d = true /\ exists p, insert_params d = Ok p.
Proof.
  intros (c1 & c2 & c3 & c4 & c5 & c6 & c7 & _ & _ & _ & _ & _ & _ & _ & ->)
    %cleaned_dict_Ok.
  split.
  - unfold dict_truthy. rewrite bool_decide_eq_false_2; [done|].
    apply insert_non_empty.
  - exists [c1; c2; c3; c4; c5; c6; c7].
    unfold insert_params, subscript. by simplify_map_eq.
Qed.

Lemma cleaned_params_Some (row : gmap string value) (p : params) :
  cleaned_params row = Some p ->
  exists d, cleaned_dict row = Ok d /\ dict_truthy d = true
            /\ insert_params d = Ok p.
Proof.
  unfold cleaned_params. destruct (cleaned_dict row) as [d|e] eqn:Hd; [|done].
  destruct (cleaned_dict_params _ _ Hd) as [Ht [p' Hp]].
  cbn. rewrite Hp. intros [= <-]. by exists d.
Qed.

Lemma cleaned_params_None (row : gmap string value) :
  cleaned_params row = None -> exists e, cleaned_dict row = Raise e.
Proof.
  unfold cleaned_params. destruct (cleaned_dict row) as [d|e] eqn:Hd;
    [|by exists e].
  destruct (cleaned_dict_params _ _ Hd) as [_ [p' Hp]]. cbn. by rewrite Hp.
Qed.

(** One turn of the loop: a kept row is one [execute], a dropped row is one
    printed line. *)
Lemma insert_row_kept (row : gmap string value) (p : params) (w : world) :
  cleaned_params row = Some p ->
  insert_row E row w = execute E p w /\ dropped_line row = None.
Proof.
  intros (d & Hd & Ht & Hp)%cleaned_params_Some.
  unfold insert_row, dropped_line. rewrite bind_run, clean_data_run, Hd, Ht.
  split; [|done]. unfold lift. rewrite bind_run. by rewrite Hp.
Qed.

Lemma insert_row_dropped (row : gmap string value) (w : world) :
  cleaned_params row = None ->
  exists line, dropped_line row = Some line
    /\ insert_row E row w = (Ok tt, put_line line w).
Proof.
  intros [e He]%cleaned_params_None.
  unfold insert_row, dropped_line. rewrite bind_run, clean_data_run, He.
  eexists; split; reflexivity.
Qed.

Lemma accepted_app (seen l1 l2 : list params) :
  accepted E seen (l1 ++ l2) <->
  accepted E seen l1 /\ accepted E (seen ++ l1) l2.
Proof.
  revert seen. induction l1 as [|p l1 IH]; intros seen; cbn.
  - rewrite app_nil_r. tauto.
  - rewrite IH, <- app_assoc. cbn. tauto.
Qed.

(** The loop over a batch whose inserts the server accepts: every kept row
    joins the transaction, the table is not touched. *)
Lemma loop_accepted (batch : list (gmap string value)) :
  forall (w : world) (pending : list params),
    conn w = Some pending ->
    accepted E (table w ++ pending) (batch_params batch) ->
    for_each batch (insert_row E) w =
      (Ok tt,
       World (stdout w ++ dropped_lines batch) (zip_on_disk w) (table w)
             (Some (pending ++ batch_params batch))
             (db_log w ++ (Execute <$> batch_params batch))).
Proof.
  induction batch as [|row batch IH]; intros w pending Hconn Hacc.
  - destruct w; cbn in *; subst. by rewrite !app_nil_r.
  - rewrite for_each_cons. unfold batch_params, dropped_lines in *.
    cbn [omap list_omap] in *.
    destruct (cleaned_params row) as [p|] eqn:Hp.
    + destruct (insert_row_kept row p w Hp) as [-> ->].
      destruct Hacc as [Hins Hacc].
      unfold execute. rewrite Hconn, Hins.
      rewrite (IH _ (pending ++ [p])); [|done|by rewrite app_assoc].
      cbn. by rewrite <- !app_assoc.
    + destruct (insert_row_dropped row w Hp) as (line & -> & ->).
      rewrite (IH _ pending); [|done|done].
      cbn. by rewrite <- !app_assoc.
Qed.

(** A batch that the server accepts is committed as a whole: one commit,
    after the last insert, then the connection is closed. *)
Lemma store_data_in_sql_accepted (data : DataFrame) (cp : connection_params)
    (w : world) :
  conn w = None ->
  db_connect E = Ok tt ->
  accepted E (table w) (batch_params (rows data)) ->
  store_data_in_sql E data cp w =
    (Ok tt,
     World (stdout w ++ ["Connecting to the database...";
                         "Inserting data into the database..."]
              ++ dropped_lines (rows data) ++ ["Data stored successfully."])
           (zip_on_disk w)
           (table w ++ batch_params (rows data))
           None
           (db_log w ++ Connect (server cp) (database cp)
              :: (Execute <$> batch_params (rows data)) ++ [Commit; Close])).
Proof.
  intros Hconn Hdb Hacc.
  unfold store_data_in_sql, try_finally, try_except.
  rewrite !bind_run. cbn [print]. unfold connect. rewrite Hdb.
  rewrite !bind_run. cbn [print].
  rewrite !bind_run.
  rewrite (loop_accepted _ _ []); [| done | by rewrite app_nil_r].
  cbn. rewrite bind_run. unfold commit, print, close_if_open. cbn.
  same_world.
Qed.

(** A batch in which an insert raises: nothing is committed. *)
Lemma store_data_in_sql_rejected (data : DataFrame) (cp : connection_params)
    (w : world) before row after p e :
  conn w = None ->
  db_connect E = Ok tt ->
  rows data = before ++ row :: after ->
  accepted E (table w) (batch_params before) ->
  cleaned_params row = Some p ->
  db_insert E (table w ++ batch_params before) p = Raise e ->
  store_data_in_sql E data cp w =
    (Ok tt,
     World (stdout w ++ ["Connecting to the database...";
                         "Inserting data into the database..."]
              ++ dropped_lines before
              ++ ["Error storing data in SQL Server: " +:+ exn_msg e])
           (zip_on_disk w)
           (table w)
           None
           (db_log w ++ Connect (server cp) (database cp)
              :: (Execute <$> batch_params before ++ [p]) ++ [Close])).
Proof.
  intros Hconn Hdb Hrows Hacc Hp Hrej.
  unfold store_data_in_sql, try_finally, try_except.
  rewrite !bind_run. cbn [print]. unfold connect. rewrite Hdb.
  rewrite !bind_run. cbn [print].
  rewrite !bind_run, Hrows, for_each_app.
  rewrite (loop_accepted _ _ []); [| done | by rewrite app_nil_r].
  rewrite for_each_cons.
  rewrite (proj1 (insert_row_kept row p _ Hp)).
  unfold execute. cbn. rewrite Hrej. cbn.
  rewrite fmap_app. same_world.
Qed.

(** C3. When the insert of some row of the batch raises, after the inserts
    of the rows before it were accepted, the persister returns normally,
    prints the error, never calls commit and closes the connection: the
    table is what it was.  When every insert is accepted, there is one
    commit, after the last insert, and the table gains the whole batch. *)
Theorem store_data_in_sql_all_or_nothing (data : DataFrame)
    (cp : connection_params) (w : world) :
  conn w = None ->
  db_connect E = Ok tt ->
  (forall before row after p e,
     rows data = before ++ row :: after ->
     accepted E (table w) (batch_params before) ->
     cleaned_params row = Some p ->
     db_insert E (table w ++ batch_params before) p = Raise e ->
     exists w', store_data_in_sql E data cp w = (Ok tt, w')
       /\ table w' = table w
       /\ conn w' = None
       /\ db_log w' = db_log w ++ Connect (server cp) (database cp)
            :: (Execute <$> batch_params before ++ [p]) ++ [Close]
       /\ last (stdout w')
            = Some ("Error storing data in SQL Server: " +:+ exn_msg e))
  /\ (accepted E (table w) (batch_params (rows data)) ->
      exists w', store_data_in_sql E data cp w = (Ok tt, w')
        /\ table w' = table w ++ batch_params (rows data)
        /\ conn w' = None
        /\ db_log w' = db_log w ++ Connect (server cp) (database cp)
             :: (Execute <$> batch_params (rows data)) ++ [Commit; Close]).
Proof.
  intros Hconn Hdb. split.
  - intros before row after p e Hrows Hacc Hp Hrej.
    eexists. split;
      [by apply (store_data_in_sql_rejected data cp w before row after p e)|].
    cbn. repeat split. by rewrite !app_comm_cons, app_assoc, last_snoc.
  - intros Hacc. eexists. split;
      [by apply store_data_in_sql_accepted|]. done.
Qed.

(** C9. Persisting a batch twice against a destination that accepts the
    inserts appends the batch twice: after the first run the table is the
    old table followed by the rows of the batch that are kept, after the
    second run it is followed by them twice, and the identifier column of a
    non-empty batch then holds repeated values. *)
Theorem store_data_in_sql_twice_duplicates (data : DataFrame)
    (cp : connection_params) (w : world) :
  conn w = None ->
  db_connect E = Ok tt ->
  accepted E (table w)
    (batch_params (rows data) ++ batch_params (rows data)) ->
  let w1 := (store_data_in_sql E data cp w).2 in
  let w2 := (store_data_in_sql E data cp w1).2 in
  table w1 = table w ++ batch_params (rows data)
  /\ table w2
      = table w ++ batch_params (rows data) ++ batch_params (rows data)
  /\ (batch_params (rows data) <> [] ->
      table w2 <> table w1 /\ ~ NoDup (complaint_ids (table w2))).
Proof.
  intros Hconn Hdb [Hacc1 Hacc2]%accepted_app w1 w2.
  assert (H1 : table w1 = table w ++ batch_params (rows data)
               /\ conn w1 = None).
  { unfold w1. by rewrite store_data_in_sql_accepted. }
  destruct H1 as [Ht1 Hc1].
  assert (Ht2 : table w2 = table w1 ++ batch_params (rows data)).
  { unfold w2. rewrite store_data_in_sql_accepted; [done|done|done|].
    by rewrite Ht1. }
  split; [done|]. rewrite Ht2, Ht1, <- app_assoc. split; [done|].
  intros Hne. split.
  - intros Heq. apply Hne.
    apply (app_inv_head (table w ++ batch_params (rows data))).
    by rewrite app_nil_r, <- app_assoc.
  - unfold complaint_ids. rewrite !fmap_app.
    intros (_ & _ & Hdup)%NoDup_app.
    apply NoDup_app in Hdup as (_ & Hdisj & _).
    destruct (batch_params (rows data)) as [|p ps]; [done|].
    apply (Hdisj (default CNone (p !! 0%nat))); left.
Qed.

(** *** The main flow *)

Lemma download_csv_file_frame (f : string) (w : world) :
  let w' := (download_csv_file E f w).2 in
  table w' = table w /\ conn w' = conn w /\ db_log w' = db_log w.
Proof.
  unfold download_csv_file, try_except, http_download, print, mbind, prog_bind.
  destruct (http_get E) as [[]|e]; cbn; [done|].
  by destruct (only RequestException e).
Qed.

Lemma extract_and_read_csv_Raise (w : world) (e : exn) :
  read_csv E = Raise e ->
  extract_and_read_csv E w =
    (Ok None,
     put_line ("Error extracting and reading CSV file: " +:+ exn_msg e)
       (put_line "Extracting CSV file..." w)).
Proof.
  intros He. unfold extract_and_read_csv, try_except, lift.
  rewrite !bind_run. cbn [print]. rewrite !bind_run. by rewrite He.
Qed.

Lemma clean_up_frame (w : world) :
  exists w', clean_up w = (Ok tt, w') /\ table w' = table w
    /\ conn w' = conn w /\ db_log w' = db_log w
    /\ forall line, line ∈ stdout w -> line ∈ stdout w'.
Proof.
  unfold clean_up. destruct (zip_on_disk w).
  - eexists. split; [reflexivity|]. cbn. repeat split.
    intros line Hin. apply elem_of_app. by left.
  - by exists w.
Qed.

(** C8. When reading the archive raises, the structurer returns [None], and
    the main flow makes no call to the database driver: its log, the table
    and the connection are what they were.  If the download step returned,
    the main flow itself returns normally and prints "No data to store." *)
Theorem main_without_data_skips_persister (w : world) (e : exn) :
  read_csv E = Raise e ->
  (forall w0, (extract_and_read_csv E w0).1 = Ok None)
  /\ db_log (main E w).2 = db_log w
  /\ table (main E w).2 = table w
  /\ conn (main E w).2 = conn w
  /\ ((download_csv_file E "complaints.csv.zip" w).1 = Ok tt ->
      (main E w).1 = Ok tt /\ "No data to store." ∈ stdout (main E w).2).
Proof.
  intros He. split; [intros w0; by rewrite (extract_and_read_csv_Raise w0 e)|].
  destruct (download_csv_file_frame "complaints.csv.zip" w) as (Ht & Hc & Hl).
  unfold main. cbn zeta. rewrite !bind_run.
  destruct (download_csv_file E "complaints.csv.zip" w) as [[[]|e0] w1];
    cbn [fst snd] in *.
  - rewrite !bind_run, (extract_and_read_csv_Raise _ e) by done. cbn [print].
    rewrite !bind_run. cbn [print].
    match goal with |- context [clean_up ?w2] =>
      destruct (clean_up_frame w2) as (w3 & -> & Ht3 & Hc3 & Hl3 & Hout) end.
    cbn [fst snd]. rewrite Ht3, Hc3, Hl3. cbn.
    repeat split; try done.
    apply Hout. cbn. apply elem_of_app. right. apply list_elem_of_here.
  - cbn. repeat split; done.
Qed.

End Persister.

Lemma clean_data_unparsable_date_kept_witness :
  exists d, clean_data (lib := iso_library) bad_date_row fresh_world
            = (Ok (Some d), fresh_world)
    /\ d !! "date_received" = Some CNaT
    /\ d !! "date_received" <> Some CNone.
Proof.
  apply (clean_data_unparsable_date_kept (lib := iso_library));
    [reflexivity | reflexivity | left; reflexivity].
Defined.

Lemma clean_data_cast_error_drops_row_witness :
  exists e',
    clean_data (lib := iso_library) bad_id_row fresh_world =
      (Ok None,
       put_line ("Error cleaning row: " +:+ "<row>" +:+ " - " +:+ exn_msg e')
         fresh_world).
Proof.
  apply (clean_data_cast_error_drops_row (lib := iso_library) bad_id_row
           fresh_world "complaint_id" "Complaint ID"
           (cast_int (lib := iso_library))
           (Exn ValueError "invalid literal for int() with base 10: 'abc'")).
  - unfold rules. apply list_elem_of_here.
  - reflexivity.
  - reflexivity.
Defined.


Lemma store_data_in_sql_all_or_nothing_witness :
  (exists w',
     store_data_in_sql (lib := iso_library)
       (rejecting_environment 1 three_loans) three_loans DB_CONNECTION
       fresh_world = (Ok tt, w')
     /\ table w' = []
     /\ conn w' = None
     /\ db_log w' = [Connect (server DB_CONNECTION) (database DB_CONNECTION);
                     Execute loan_params; Execute loan_params; Close]
     /\ last (stdout w')
        = Some "Error storing data in SQL Server: The INSERT statement failed.")
  /\ (exists w',
       store_data_in_sql (lib := iso_library)
         (plain_environment three_loans) three_loans DB_CONNECTION
         fresh_world = (Ok tt, w')
       /\ table w' = [loan_params; loan_params; loan_params]
       /\ conn w' = None
       /\ db_log w' = [Connect (server DB_CONNECTION) (database DB_CONNECTION);
                       Execute loan_params; Execute loan_params;
                       Execute loan_params; Commit; Close]).
Proof.
  split.
  - apply (proj1 (store_data_in_sql_all_or_nothing (lib := iso_library)
             (rejecting_environment 1 three_loans) three_loans DB_CONNECTION
             fresh_world eq_refl eq_refl)
             [loan_row] loan_row [loan_row] loan_params
             (Exn DatabaseError "The INSERT statement failed.")).
    + reflexivity.
    + vm_compute. split; [reflexivity|exact I].
    + vm_compute. reflexivity.
    + vm_compute. reflexivity.
  - apply (proj2 (store_data_in_sql_all_or_nothing (lib := iso_library)
             (plain_environment three_loans) three_loans DB_CONNECTION
             fresh_world eq_refl eq_refl)).
    vm_compute. repeat split.
Defined.

Lemma store_data_in_sql_twice_duplicates_witness :
  let E := plain_environment three_loans in
  let w1 := (store_data_in_sql (lib := iso_library) E three_loans
               DB_CONNECTION fresh_world).2 in
  let w2 := (store_data_in_sql (lib := iso_library) E three_loans
               DB_CONNECTION w1).2 in
  table w1 = [loan_params; loan_params; loan_params]
  /\ table w2 = [loan_params; loan_params; loan_params;
                 loan_params; loan_params; loan_params].
Proof.
  intros E w1 w2.
  destruct (store_data_in_sql_twice_duplicates (lib := iso_library) E
              three_loans DB_CONNECTION fresh_world) as (H1 & H2 & _).
  - reflexivity.
  - reflexivity.
  - vm_compute. repeat split.
  - split; [exact H1|exact H2].
Defined.

Lemma main_without_data_skips_persister_witness :
  let r := main (lib := iso_library) corrupt_environment fresh_world in
  r.1 = Ok tt /\ "No data to store." ∈ stdout r.2 /\ db_log r.2 = [].
Proof.
  intros r.
  destruct (main_without_data_skips_persister (lib := iso_library)
              corrupt_environment fresh_world
              (Exn ValueError "File is not a zip file") eq_refl)
    as (_ & Hlog & _ & _ & Hmain).
  destruct (Hmain eq_refl) as [Hok Hout].
  split; [exact Hok|split; [exact Hout|exact Hlog]].
Defined.

End ComplaintsTheory.

(** ** Properties of the demographics pipeline *)

Module USDemographicsTheory.
Import Py USDemographics.

(** *** Chains of [.get] *)

Lemma py_get_empty (k : string) (d : json) : py_get (JObj []) k d = Ok d.
Proof. reflexivity. Qed.

Lemma get_chain_empty (path : list string) :
  get_chain (JObj []) path = Ok (JObj []).
Proof. induction path as [|k path IH]; [done|]. cbn. exact IH. Qed.

Lemma dig_empty (path : list string) (last : string) :
  dig (JObj []) path last = Ok JNull.
Proof. unfold dig. by rewrite get_chain_empty. Qed.

Lemma get_chain_cons (o : json) (k : string) (path : list string) :
  get_chain o (k :: path) =
    match o with
    | JObj items => get_chain (default (JObj []) (assoc k items)) path
    | _ => raise AttributeError
             ("'" +:+ type_name o +:+ "' object has no attribute 'get'")
    end.
Proof. by destruct o. Qed.


Lemma objects_along_empty (path : list string) :
  objects_along (JObj []) path = true.
Proof. by destruct path. Qed.

(** A chain of [.get] followed by one more [.get] raises exactly when it
    meets something that is not a dictionary. *)
Lemma chain_then_get_ok (path : list string) (k : string) (d : json) :
  forall o : json,
    is_ok (o' ← get_chain o path; py_get o' k d) = objects_along o path.
Proof.
  induction path as [|k0 path IH]; intros o.
  - by destruct o.
  - rewrite get_chain_cons.
    destruct o as [| | | | | |items]; try done.
    cbn [objects_along]. destruct (assoc k0 items) as [o'|]; cbn [default].
    + apply IH.
    + by rewrite get_chain_empty.
Qed.

Lemma dig_ok (o : json) (path : list string) (last : string) :
  is_ok (dig o path last) = objects_along o path.
Proof. apply chain_then_get_ok. Qed.

Lemma chain_ok_object (path : list string) :
  forall o gd : json,
    get_chain o path = Ok gd -> objects_along o path = true ->
    exists items, gd = JObj items.
Proof.
  induction path as [|k path IH]; intros o gd Hgd Hobj.
  - cbn in Hgd. injection Hgd as <-. destruct o; try discriminate. by eexists.
  - rewrite get_chain_cons in Hgd.
    destruct o as [| | | | | |items]; try discriminate.
    cbn [objects_along] in Hobj.
    destruct (assoc k items) as [o'|]; cbn [default] in Hgd.
    + by apply (IH o').
    + rewrite get_chain_empty in Hgd. injection Hgd as <-. by eexists.
Qed.

(** *** Flattening one record *)

Lemma bind_Ok {A B} (m : result A) (f : A -> result B) (b : B) :
  m ≫= f = Ok b -> exists a, m = Ok a /\ f a = Ok b.
Proof. destruct m as [a|e]; [|discriminate]. intros Hf. by exists a. Qed.

Lemma is_ok_bind {A B} (m : result A) (f : A -> result B) :
  is_ok (m ≫= f) = match m with Ok a => is_ok (f a) | Raise _ => false end.
Proof. by destruct m. Qed.

Lemma base_info_of_Ok (record : json) (m : gmap string json) :
  base_info_of record = Ok m ->
  forall c path last, (c, (path, last)) ∈ base_columns ->
    exists v, dig record path last = Ok v /\ m !! c = Some v.
Proof.
  unfold base_info_of. intros Hm.
  repeat (apply bind_Ok in Hm as (? & ? & Hm)).
  injection Hm as <-.
  intros c path last Hin. unfold base_columns in Hin.
  repeat (apply elem_of_cons in Hin as [[= -> -> ->]|Hin];
          [eexists; split; [eassumption|by simplify_map_eq] |]).
  by apply elem_of_nil in Hin.
Qed.

(** No two flattened columns have the same name. *)
Lemma extraction_columns_NoDup : NoDup extraction_paths.*1.
Proof. apply (bool_decide_unpack _). by vm_compute. Qed.

(** The loop over the age groups: each group sets its two columns to what
    its two chains evaluate to, and no other column changes. *)
Lemma age_group_loop_Ok (record : json) (groups : list string) :
  forall m m' : gmap string json,
    NoDup (groups ≫= group_columns).*1 ->
    age_group_loop record groups m = Ok m' ->
    (forall c path last, (c, (path, last)) ∈ groups ≫= group_columns ->
       exists v, dig record path last = Ok v /\ m' !! c = Some v)
    /\ (forall c, c ∉ (groups ≫= group_columns).*1 -> m' !! c = m !! c).
Proof.
  induction groups as [|g rest IH]; intros m m' Hnd Hloop.
  - cbn in *. injection Hloop as <-. split; [|done].
    intros c path last Hin. by apply elem_of_nil in Hin.
  - cbn in Hnd. apply NoDup_cons in Hnd as [Hg19 Hnd].
    apply NoDup_cons in Hnd as [Hg10 Hnd].
    apply not_elem_of_cons in Hg19 as [Hne Hg19].
    cbn [age_group_loop] in Hloop.
    apply bind_Ok in Hloop as (gd & Hgd & Hloop).
    apply bind_Ok in Hloop as (v19 & Hv19 & Hloop).
    apply bind_Ok in Hloop as (v10 & Hv10 & Hloop).
    destruct (IH _ _ Hnd Hloop) as [Hcols Hframe]. split.
    + intros c path last Hin. cbn in Hin.
      apply elem_of_cons in Hin as [[= -> -> ->]|Hin];
        [|apply elem_of_cons in Hin as [[= -> -> ->]|Hin]].
      * exists v19. split; [unfold dig; by rewrite Hgd|].
        rewrite Hframe by done.
        by rewrite lookup_insert_ne, lookup_insert_eq.
      * exists v10. split; [unfold dig; by rewrite Hgd|].
        rewrite Hframe by done. by rewrite lookup_insert_eq.
      * by apply Hcols.
    + intros c Hc. cbn in Hc.
      apply not_elem_of_cons in Hc as [Hc19 Hc].
      apply not_elem_of_cons in Hc as [Hc10 Hc].
      rewrite Hframe by done.
      by rewrite !lookup_insert_ne.
Qed.

(** Every column of a flattened record holds what the chain of its path
    evaluates to. *)
Lemma flatten_record_columns (record : json) (row : gmap string json) :
  flatten_record record = Ok row ->
  forall c path last, (c, (path, last)) ∈ extraction_paths ->
    exists v, dig record path last = Ok v /\ row !! c = Some v.
Proof.
  unfold flatten_record. intros (base & Hbase & Hloop)%bind_Ok.
  pose proof extraction_columns_NoDup as Hnd.
  unfold extraction_paths in *. rewrite fmap_app in Hnd.
  apply NoDup_app in Hnd as (_ & Hdisj & Hnd).
  destruct (age_group_loop_Ok _ _ _ _ Hnd Hloop) as [Hcols Hframe].
  intros c path last [Hin|Hin]%elem_of_app.
  - destruct (base_info_of_Ok _ _ Hbase _ _ _ Hin) as (v & Hv & Hlook).
    exists v. split; [done|]. rewrite Hframe; [done|].
    apply Hdisj. apply list_elem_of_fmap. by exists (c, (path, last)).
  - by apply Hcols.
Qed.

(** *** When the structurer raises *)

Ltac step_dig :=
  match goal with
  | |- context [dig ?o ?path ?last ≫= _] =>
      let H := fresh "Hdig" in
      pose proof (dig_ok o path last) as H;
      destruct (dig o path last); cbn [is_ok] in H;
      rewrite <- ?H; cbn [mbind result_bind is_ok andb]
  end.

Lemma base_info_of_ok (record : json) :
  is_ok (base_info_of record)
  = forallb (fun c => objects_along record c.2.1) base_columns.
Proof.
  unfold base_info_of, base_columns. cbn [forallb fst snd].
  repeat match goal with
         | |- context [py_get record ?k JNull ≫= _] =>
             change (py_get record k JNull) with (dig record [] k)
         end.
  repeat step_dig; first [reflexivity | congruence].
Qed.

Lemma age_group_loop_ok (record : json) (groups : list string) :
  forall m : gmap string json,
    is_ok (age_group_loop record groups m)
    = forallb (fun g => objects_along record ["population_by_age"; "total"; g])
        groups.
Proof.
  induction groups as [|g rest IH]; intros m; [done|].
  cbn [age_group_loop forallb].
  pose proof (chain_then_get_ok ["population_by_age"; "total"; g] "2019"
                JNull record) as Hgd.
  destruct (get_chain record ["population_by_age"; "total"; g]) as [gd|];
    cbn [mbind result_bind is_ok] in *; rewrite <- Hgd; [|done].
  destruct gd; cbn [py_get mbind result_bind is_ok raise andb];
    first [done | apply IH].
Qed.

Lemma group_columns_ok (record : json) (groups : list string) :
  forallb (fun c => objects_along record c.2.1) (groups ≫= group_columns)
  = forallb (fun g => objects_along record ["population_by_age"; "total"; g])
      groups.
Proof.
  induction groups as [|g rest IH]; [done|].
  cbn [mbind list_bind group_columns app forallb fst snd]. rewrite IH.
  by destruct (objects_along record ["population_by_age"; "total"; g]).
Qed.

(** Flattening raises exactly on the records that are not well shaped. *)
Lemma flatten_record_ok (record : json) :
  is_ok (flatten_record record) = well_shaped record.
Proof.
  unfold flatten_record, well_shaped, extraction_paths.
  rewrite forallb_app, group_columns_ok, <- base_info_of_ok, is_ok_bind.
  destruct (base_info_of record) as [m|]; [|done].
  cbn [is_ok andb]. apply age_group_loop_ok.
Qed.

Lemma record_loop_ok (items : list json) :
  forall records, is_ok (record_loop items records) = forallb well_shaped items.
Proof.
  induction items as [|record rest IH]; intros records; [done|].
  cbn [record_loop forallb]. rewrite is_ok_bind, <- flatten_record_ok.
  destruct (flatten_record record); [apply IH|done].
Qed.

(** C7, as the code has it. The structurer returns normally exactly on the
    lists whose elements are dictionaries in which every value met along
    the extraction paths is a dictionary again; anything that is not a list
    gets the [ValueError] of the guard. *)
Theorem json_to_dataframe_raises_iff (data : json) :
  (is_ok (json_to_dataframe data) = true <->
   exists items, data = JList items
     /\ Forall (fun record => well_shaped record = true) items)
  /\ match data with
     | JList _ => True
     | _ => json_to_dataframe data
            = raise ValueError "Expected JSON data to be a list of records."
     end.
Proof.
  split; [|by destruct data].
  split.
  - destruct data as [| | | | |items|]; try discriminate.
    cbn [json_to_dataframe]. rewrite record_loop_ok.
    intros Hall. exists items. split; [done|].
    apply Forall_forall. intros r Hr%list_elem_of_In.
    by apply (proj1 (forallb_forall _ _) Hall).
  - intros (items & -> & Hall). cbn [json_to_dataframe].
    rewrite record_loop_ok. apply forallb_forall.
    intros r Hr%list_elem_of_In. by apply (proj1 (Forall_forall _ _) Hall).
Qed.



(** *** The main flow *)

(** C10. When the loaded payload is not a list, the main flow prints the
    [ValueError] of the structurer, goes on to the persist step, and ends
    there with an uncaught [NameError]: the name [df] was never assigned.
    Nothing is written to the database. *)
Theorem main_not_a_list_ends_in_NameError (E : environment) (w : world)
    (path : string) (data : json) :
  dataset_download E = Ok path ->
  json_load E (path +:+ "/us_county_demographics.json") = Ok data ->
  (forall items, data <> JList items) ->
  name_df w = None ->
  main E w =
    (raise NameError "name 'df' is not defined",
     World (stdout w ++
              ["Path to dataset files: " +:+ path;
               "Error transforming JSON to DataFrame: "
               +:+ "Expected JSON data to be a list of records."])
           None (sql_table w) (sql_writes w)).
Proof.
  intros Hpath Hload Hdata Hdf.
  assert (Hraise : json_to_dataframe data
                   = raise ValueError "Expected JSON data to be a list of records.").
  { destruct data; try reflexivity. by destruct (Hdata items). }
  unfold main, download_dataset, load_json_from_kaggle, try_except, lift,
    load_df, print, mbind, prog_bind, mret, prog_ret.
  rewrite Hpath, Hload, Hraise. cbn. rewrite Hdf.
  by rewrite <- app_assoc.
Qed.

Lemma main_not_a_list_ends_in_NameError_witness :
  main (good_environment (JObj [])) fresh_world =
    (raise NameError "name 'df' is not defined",
     World ["Path to dataset files: /kaggle/input";
            "Error transforming JSON to DataFrame: Expected JSON data to be a list of records."]
           None None []).
Proof.
  apply (main_not_a_list_ends_in_NameError (good_environment (JObj []))
           fresh_world "/kaggle/input" (JObj [])).
  - reflexivity.
  - reflexivity.
  - intros items. discriminate.
  - reflexivity.
Defined.

(** C7, as the claim words it, fails: a list of one dictionary whose
    [population_by_gender] is [None] makes the structurer raise. *)
Lemma list_of_objects_raises :
  (exists items, null_level_record = JObj items)
  /\ json_to_dataframe (JList [null_level_record])
     = raise AttributeError "'NoneType' object has no attribute 'get'".
Proof. split; [by eexists|]. vm_compute. reflexivity. Qed.

Lemma json_to_dataframe_raises_iff_witness :
  is_ok (json_to_dataframe (JList [young_record])) = true.
Proof.
  apply (proj1 (json_to_dataframe_raises_iff (JList [young_record]))).
  exists [young_record]. split; [reflexivity|].
  apply Forall_cons. split; [vm_compute; reflexivity|apply Forall_nil_2].
Defined.

End USDemographicsTheory.

(** ** Further properties of the complaints pipeline *)

Module ComplaintsExtra.
Import Py Complaints ComplaintsTheory ComplaintsCases.

Section RowValidator.
Context `{lib : Library}.

(** X8. Not-a-number, which is what the CSV reader gives for an empty
    cell, is truthy: a row whose [Complaint ID] is not-a-number is dropped
    ([int] raises on it), and a text field that is not-a-number is stored
    as the string ["nan"], not as [None]. *)
Theorem clean_data_nan_cells (row : gmap string value) (w : world) :
  (get row "Complaint ID" = VFloat FNaN ->
   exists w', clean_data row w = (Ok None, w'))
  /\ (forall d w' key src,
        clean_data row w = (Ok (Some d), w') ->
        (key, src, cast_str) ∈ rules ->
        get row src = VFloat FNaN ->
        d !! key = Some (CStr "nan")).
Proof.
  split.
  - intros Hid. rewrite clean_data_run.
    destruct (cleaned_dict_Raise row "complaint_id" "Complaint ID" cast_int
                (Exn ValueError "cannot convert float NaN to integer"))
      as [e' ->].
    + unfold rules. apply list_elem_of_here.
    + by rewrite Hid.
    + by rewrite Hid.
    + by eexists.
  - intros d w' key src Hrun Hin Hnan.
    rewrite clean_data_run in Hrun.
    destruct (cleaned_dict row) as [d'|] eqn:Hd; [|discriminate].
    injection Hrun as -> _.
    destruct (cleaned_dict_lookups _ _ Hd _ _ _ Hin) as (v & Hf & Hv).
    unfold field in Hf. rewrite Hnan in Hf. cbn in Hf.
    by injection Hf as <-.
Qed.

(** X17. A [Date received] that the parser reads as a timestamp of a year
    outside 1 to 9999 makes [.date()] raise: the row is dropped because of
    its date alone, one line is printed and nothing is raised. *)
Theorem clean_data_date_out_of_range_drops_row (row : gmap string value)
    (w : world) (y m d nanos : Z) :
  truthy (get row "Date received") = true ->
  to_datetime (get row "Date received") = Ok (Timestamp y m d nanos) ->
  (y < 1 \/ 9999 < y)%Z ->
  exists e',
    clean_data row w =
      (Ok None,
       put_line ("Error cleaning row: " +:+ series_repr row +:+ " - "
                 +:+ exn_msg e') w).
Proof.
  intros Ht Hparse Hy. rewrite clean_data_run.
  destruct (cleaned_dict_Raise row "date_received" "Date received" cast_date
              date_range_error) as [e' ->].
  - unfold rules. do 6 apply list_elem_of_further. apply list_elem_of_here.
  - done.
  - by apply (cast_date_out_of_range _ y m d nanos).
  - by exists e'.
Qed.

End RowValidator.

Section Persister.
Context `{lib : Library} (E : environment).

(** The loop over any batch, whatever the server answers: it only changes
    the console, the driver log and the open transaction. *)
Lemma loop_frame (batch : list (gmap string value)) :
  forall (w : world) (pending : list params),
    conn w = Some pending ->
    exists r w' pending',
      for_each batch (insert_row E) w = (r, w')
      /\ table w' = table w
      /\ zip_on_disk w' = zip_on_disk w
      /\ conn w' = Some pending'
      /\ (r = Ok tt -> pending' = pending ++ batch_params batch).
Proof.
  induction batch as [|row batch IH]; intros w pending Hconn.
  - exists (Ok tt), w, pending. cbn. by rewrite app_nil_r.
  - rewrite for_each_cons. unfold batch_params. cbn [omap list_omap].
    destruct (cleaned_params row) as [p|] eqn:Hp.
    + rewrite (proj1 (insert_row_kept E row p w Hp)).
      unfold execute. rewrite Hconn.
      destruct (db_insert E (table w ++ pending) p) as [[]|e].
      * destruct (IH (set_conn (Some (pending ++ [p])) (Execute p) w)
                    (pending ++ [p]) eq_refl)
          as (r & w' & pending' & -> & Ht & Hz & Hc & Hr).
        exists r, w', pending'. repeat split; try done.
        intros ->. rewrite Hr by done. by rewrite <- app_assoc.
      * eexists _, _, pending. repeat split; done.
    + destruct (insert_row_dropped E row w Hp) as (line & _ & ->).
      destruct (IH (put_line line w) pending Hconn)
        as (r & w' & pending' & -> & Ht & Hz & Hc & Hr).
      exists r, w', pending'. repeat split; done.
Qed.

Lemma store_data_in_sql_frame (data : DataFrame)
    (cp : connection_params) (w : world) :
  conn w = None ->
  exists w', store_data_in_sql E data cp w = (Ok tt, w')
    /\ conn w' = None
    /\ zip_on_disk w' = zip_on_disk w
    /\ (table w' = table w
        \/ table w' = table w ++ batch_params (rows data)).
Proof.
  intros Hconn.
  unfold store_data_in_sql, try_finally, try_except.
  rewrite !bind_run. cbn [print]. unfold connect.
  destruct (db_connect E) as [[]|e].
  - rewrite !bind_run. cbn [print]. rewrite !bind_run.
    destruct (loop_frame (rows data)
                (put_line "Inserting data into the database..."
                   (set_conn (Some []) (Connect (server cp) (database cp))
                      (put_line "Connecting to the database..." w)))
                [] eq_refl)
      as (r & w1 & pending' & -> & Ht & Hz & Hc & Hr).
    destruct r as [[]|e].
    + rewrite bind_run. unfold commit. rewrite Hc.
      cbn. eexists. split; [reflexivity|]. cbn.
      rewrite Hr by done. rewrite Ht, Hz. cbn. auto.
    + cbn. unfold close_if_open. cbn. rewrite Hc.
      eexists. split; [reflexivity|]. cbn. rewrite Ht, Hz. cbn. auto.
  - rewrite !bind_run. cbn. unfold close_if_open. cbn. rewrite Hconn.
    eexists. split; [reflexivity|]. cbn. auto.
Qed.

(** X2. When the server refuses the connection, the persister prints the
    error and returns normally; the only call made to the driver is the
    connection attempt: no insert, no commit, and no close, since [conn]
    was never assigned. *)
Theorem store_data_in_sql_connect_failure (data : DataFrame)
    (cp : connection_params) (w : world) (e : exn) :
  conn w = None ->
  db_connect E = Raise e ->
  store_data_in_sql E data cp w =
    (Ok tt,
     World (stdout w ++ ["Connecting to the database...";
                         "Error storing data in SQL Server: " +:+ exn_msg e])
           (zip_on_disk w) (table w) None
           (db_log w ++ [Connect (server cp) (database cp)])).
Proof.
  intros Hconn Hdb.
  unfold store_data_in_sql, try_finally, try_except.
  rewrite !bind_run. cbn [print]. unfold connect. rewrite Hdb.
  rewrite !bind_run. cbn. unfold close_if_open. cbn. rewrite Hconn.
  same_world.
Qed.

(** X1. [download_csv_file] catches [RequestException] and nothing else: a
    successful download leaves the archive on disk and prints two lines; a
    [RequestException] is printed and the function returns normally; an
    exception of any other class leaves the function. *)
Theorem download_csv_file_catches_RequestException_only (f : string)
    (w : world) :
  match http_get E with
  | Ok _ =>
      download_csv_file E f w =
        (Ok tt,
         World (stdout w ++ ["Downloading CSV file...";
                             "File downloaded: " +:+ f])
               true (table w) (conn w) (db_log w))
  | Raise e =>
      let w' :=
        World (stdout w ++ ["Downloading CSV file..."])
              (zip_on_disk w || http_partial_file E)
              (table w) (conn w) (db_log w) in
      if bool_decide (exn_cls e = RequestException)
      then download_csv_file E f w =
             (Ok tt, put_line ("Error downloading CSV file: " +:+ exn_msg e) w')
      else download_csv_file E f w = (Raise e, w')
  end.
Proof.
  unfold download_csv_file, try_except, http_download, print, mbind, prog_bind.
  destruct (http_get E) as [[]|e]; cbn.
  - same_world.
  - unfold only. by destruct (bool_decide (exn_cls e = RequestException)).
Qed.

Lemma get_select (cols : list string) (row : gmap string value) (k : string) :
  k ∈ cols ->
  get (filter (fun kv => kv.1 ∈ cols) row) k = get row k.
Proof.
  intros Hk. unfold get. destruct (row !! k) as [v|] eqn:Hv.
  - by rewrite (map_lookup_filter_Some_2 _ _ _ _ Hv Hk).
  - rewrite map_lookup_filter_None_2; [done|by left].
Qed.

Lemma cleaned_dict_select (row : gmap string value) :
  cleaned_dict (filter (fun kv => kv.1 ∈ the_columns) row) = cleaned_dict row.
Proof.
  unfold cleaned_dict, field.
  rewrite !get_select; [done|unfold the_columns; set_solver..].
Qed.

Lemma select_columns_Ok (data data' : DataFrame) :
  select_columns the_columns data = Ok data' ->
  columns data' = the_columns
  /\ rows data' = (fun r => filter (fun kv => kv.1 ∈ the_columns) r) <$> rows data.
Proof.
  unfold select_columns. destruct (forallb _ _); [|discriminate].
  by intros [= <-].
Qed.

Lemma batch_params_select (batch : list (gmap string value)) :
  batch_params ((fun r => filter (fun kv => kv.1 ∈ the_columns) r) <$> batch)
  = batch_params batch.
Proof.
  unfold batch_params. induction batch as [|row batch IH]; [done|].
  rewrite fmap_cons. cbn [omap list_omap].
  rewrite IH. unfold cleaned_params. by rewrite cleaned_dict_select.
Qed.

(** X4. Selecting the seven columns in [main] keeps the number of rows and
    changes nothing of what the row validator makes of them: the inserts
    asked for are those of the unselected frame. *)
Theorem select_columns_keeps_cleaned_rows (data data' : DataFrame) :
  select_columns the_columns data = Ok data' ->
  columns data' = the_columns
  /\ length (rows data') = length (rows data)
  /\ batch_params (rows data') = batch_params (rows data).
Proof.
  intros [Hc Hr]%select_columns_Ok. rewrite Hr.
  split; [done|]. split; [by rewrite length_fmap|apply batch_params_select].
Qed.

Lemma select_columns_missing (data : DataFrame) (c : string) :
  c ∈ the_columns -> c ∉ columns data ->
  select_columns the_columns data = raise KeyError "not in index".
Proof.
  intros Hin Hout. unfold select_columns.
  destruct (forallb _ _) eqn:Hall; [|done].
  rewrite forallb_forall in Hall.
  apply list_elem_of_In, Hall, bool_decide_eq_true in Hin. done.
Qed.

Lemma select_columns_present (data : DataFrame) :
  (forall c, c ∈ the_columns -> c ∈ columns data) ->
  select_columns the_columns data =
    Ok {| columns := the_columns;
          rows := (fun r => filter (fun kv => kv.1 ∈ the_columns) r)
                    <$> rows data |}.
Proof.
  intros Hall. unfold select_columns.
  destruct (forallb _ _) eqn:Hf; [done|].
  apply not_true_iff_false in Hf. destruct Hf.
  apply forallb_forall. intros c Hc%list_elem_of_In.
  apply bool_decide_eq_true. by apply Hall.
Qed.

(** X3. Whatever the server answers, the persister returns normally and
    leaves no connection open; the archive on disk is not touched, and the
    table is either what it was or what it was followed by the whole
    batch. *)
Theorem store_data_in_sql_returns_closed (data : DataFrame)
    (cp : connection_params) (w : world) :
  conn w = None ->
  exists w', store_data_in_sql E data cp w = (Ok tt, w')
    /\ conn w' = None
    /\ zip_on_disk w' = zip_on_disk w
    /\ (table w' = table w
        \/ table w' = table w ++ batch_params (rows data)).
Proof. apply store_data_in_sql_frame. Qed.

(** X16. A row that the validator drops does not end the batch: its error
    line is printed, the rows before and after it are inserted and
    committed in order. *)
Theorem store_data_in_sql_skips_dropped_row (data : DataFrame)
    (cp : connection_params) (w : world) before bad after :
  conn w = None ->
  db_connect E = Ok tt ->
  rows data = before ++ bad :: after ->
  cleaned_params bad = None ->
  accepted E (table w) (batch_params before ++ batch_params after) ->
  exists w' line,
    store_data_in_sql E data cp w = (Ok tt, w')
    /\ table w' = table w ++ batch_params before ++ batch_params after
    /\ dropped_line bad = Some line
    /\ line ∈ stdout w'
    /\ last (stdout w') = Some "Data stored successfully.".
Proof.
  intros Hconn Hdb Hrows Hbad Hacc.
  assert (Hbatch : batch_params (rows data)
                   = batch_params before ++ batch_params after).
  { rewrite Hrows. unfold batch_params. rewrite omap_app. cbn [omap list_omap].
    by rewrite Hbad. }
  destruct (insert_row_dropped E bad w Hbad) as (line & Hline & _).
  eexists _, line. split.
  { apply store_data_in_sql_accepted; [done|done|by rewrite Hbatch]. }
  cbn. rewrite Hbatch. repeat split; [done| |].
  - rewrite Hrows. unfold dropped_lines. rewrite omap_app.
    cbn [omap list_omap]. rewrite Hline.
    rewrite elem_of_app. right. do 2 apply list_elem_of_further.
    rewrite !elem_of_app. left. right. apply list_elem_of_here.
  - by rewrite !app_comm_cons, !app_assoc, last_snoc.
Qed.

(** *** The main flow *)

Lemma download_csv_file_Ok (f : string) (w : world) :
  http_get E = Ok tt ->
  download_csv_file E f w =
    (Ok tt,
     World (stdout w ++ ["Downloading CSV file..."; "File downloaded: " +:+ f])
           true (table w) (conn w) (db_log w)).
Proof.
  intros Hget.
  unfold download_csv_file, try_except, http_download, print, mbind, prog_bind.
  rewrite Hget. same_world.
Qed.

Lemma extract_and_read_csv_run (w : world) :
  extract_and_read_csv E w =
    match read_csv E with
    | Ok data =>
        (Ok (Some data),
         put_line "CSV file extracted and read."
           (put_line "Extracting CSV file..." w))
    | Raise e =>
        (Ok None,
         put_line ("Error extracting and reading CSV file: " +:+ exn_msg e)
           (put_line "Extracting CSV file..." w))
    end.
Proof.
  unfold extract_and_read_csv, try_except, lift.
  rewrite !bind_run. cbn [print]. rewrite !bind_run.
  by destruct (read_csv E).
Qed.

Lemma clean_up_removes (w : world) :
  (clean_up w).1 = Ok tt
  /\ zip_on_disk (clean_up w).2 = false
  /\ table (clean_up w).2 = table w
  /\ conn (clean_up w).2 = conn w
  /\ db_log (clean_up w).2 = db_log w.
Proof. unfold clean_up. by destruct (zip_on_disk w) eqn:Hz. Qed.

(** The main flow either raises or ends with the clean-up step. *)
Lemma main_reaches_clean_up (w : world) :
  conn w = None ->
  (exists e w', main E w = (Raise e, w'))
  \/ (exists w0, main E w = clean_up w0).
Proof.
  intros Hconn.
  destruct (download_csv_file_frame E "complaints.csv.zip" w) as (_ & Hc & _).
  unfold main. cbn zeta. rewrite !bind_run.
  destruct (download_csv_file E "complaints.csv.zip" w) as [[[]|e0] w1];
    cbn [fst snd] in *; [|left; by eexists _, _].
  rewrite !bind_run, extract_and_read_csv_run.
  destruct (read_csv E) as [data|e].
  - rewrite !bind_run. cbn [print]. unfold lift. rewrite !bind_run.
    destruct (select_columns the_columns data) as [data'|e];
      [|left; by eexists _, _].
    match goal with |- context [store_data_in_sql E data' DB_CONNECTION ?w2] =>
      destruct (store_data_in_sql_frame data' DB_CONNECTION w2)
        as (w3 & -> & _) end.
    { cbn. by rewrite Hc. }
    right. by exists w3.
  - rewrite !bind_run. cbn [print]. right. by eexists.
Qed.

(** X7. Whenever [main] returns normally, the downloaded archive is no
    longer on disk. *)
Theorem main_normal_return_removes_archive (w : world) :
  conn w = None ->
  (main E w).1 = Ok tt ->
  zip_on_disk (main E w).2 = false.
Proof.
  intros Hconn Hok.
  destruct (main_reaches_clean_up w Hconn) as [(e & w' & Hm)|(w0 & Hm)].
  - rewrite Hm in Hok. discriminate.
  - rewrite Hm. apply clean_up_removes.
Qed.

(** X5. When the file lacks one of the seven columns, the selection in
    [main] raises [KeyError] out of [main]: no call is made to the database,
    and the clean-up step is not reached, so the archive stays on disk as
    the download left it. *)
Theorem main_missing_column_KeyError (w : world) (data : DataFrame)
    (c : string) :
  read_csv E = Ok data ->
  c ∈ the_columns -> c ∉ columns data ->
  (download_csv_file E "complaints.csv.zip" w).1 = Ok tt ->
  (main E w).1 = raise KeyError "not in index"
  /\ db_log (main E w).2 = db_log w
  /\ table (main E w).2 = table w
  /\ zip_on_disk (main E w).2
     = zip_on_disk (download_csv_file E "complaints.csv.zip" w).2.
Proof.
  intros Hread Hin Hout Hdl.
  destruct (download_csv_file_frame E "complaints.csv.zip" w) as (Ht & _ & Hl).
  unfold main. cbn zeta. rewrite !bind_run.
  destruct (download_csv_file E "complaints.csv.zip" w) as [[[]|e0] w1];
    cbn [fst snd] in *; [|discriminate].
  rewrite !bind_run, extract_and_read_csv_run, Hread.
  rewrite !bind_run. cbn [print]. unfold lift. rewrite !bind_run.
  rewrite (select_columns_missing data c Hin Hout). cbn.
  by rewrite Ht, Hl.
Qed.

(** X6. When the download succeeds, the file has the seven columns and the
    server accepts the connection and the inserts, [main] returns normally:
    the table gains the rows of the batch that are kept, in file order, the
    connection is closed and the archive is removed. *)
Theorem main_loads_the_batch (w : world) (data : DataFrame) :
  conn w = None ->
  http_get E = Ok tt ->
  read_csv E = Ok data ->
  (forall c, c ∈ the_columns -> c ∈ columns data) ->
  db_connect E = Ok tt ->
  accepted E (table w) (batch_params (rows data)) ->
  exists w', main E w = (Ok tt, w')
    /\ table w' = table w ++ batch_params (rows data)
    /\ conn w' = None
    /\ zip_on_disk w' = false
    /\ last (stdout w') = Some "Temporary files cleaned up.".
Proof.
  intros Hconn Hget Hread Hcols Hdb Hacc.
  unfold main. cbn zeta.
  rewrite !bind_run, (download_csv_file_Ok _ _ Hget).
  rewrite !bind_run, extract_and_read_csv_run, Hread.
  rewrite !bind_run. cbn [print]. unfold lift. rewrite !bind_run.
  rewrite (select_columns_present data Hcols).
  rewrite store_data_in_sql_accepted; cbn [rows table conn put_line];
    [|done|done|by rewrite batch_params_select].
  unfold clean_up. cbn. eexists. split; [reflexivity|]. cbn.
  rewrite batch_params_select. repeat split.
  by rewrite !app_comm_cons, !app_assoc, last_snoc.
Qed.

End Persister.

Lemma clean_data_date_out_of_range_drops_row_witness :
  exists e',
    clean_data (lib := iso_library) year_zero_row fresh_world =
      (Ok None,
       put_line ("Error cleaning row: " +:+ "<row>" +:+ " - " +:+ exn_msg e')
         fresh_world).
Proof.
  apply (clean_data_date_out_of_range_drops_row (lib := iso_library)
           year_zero_row fresh_world 0 1 1 0).
  - reflexivity.
  - reflexivity.
  - left. reflexivity.
Defined.

Lemma clean_data_nan_cells_witness :
  (exists w', clean_data (lib := iso_library) no_id_row fresh_world
              = (Ok None, w'))
  /\ forall d w',
       clean_data (lib := iso_library) no_product_row fresh_world
         = (Ok (Some d), w') ->
       d !! "product" = Some (CStr "nan").
Proof.
  split.
  - apply (proj1 (clean_data_nan_cells (lib := iso_library) no_id_row
                    fresh_world)).
    reflexivity.
  - intros d w' Hrun.
    apply (proj2 (clean_data_nan_cells (lib := iso_library) no_product_row
                    fresh_world) d w' "product" "Product" Hrun).
    + unfold rules. apply list_elem_of_further, list_elem_of_here.
    + reflexivity.
Defined.

Lemma store_data_in_sql_connect_failure_witness :
  store_data_in_sql (lib := iso_library) (offline_environment three_loans)
    three_loans DB_CONNECTION fresh_world =
    (Ok tt,
     World ["Connecting to the database...";
            "Error storing data in SQL Server: Login timeout expired"]
           false [] None
           [Connect (server DB_CONNECTION) (database DB_CONNECTION)]).
Proof.
  apply (store_data_in_sql_connect_failure (lib := iso_library)
           (offline_environment three_loans) three_loans DB_CONNECTION
           fresh_world (Exn DatabaseError "Login timeout expired"));
    reflexivity.
Defined.

Lemma store_data_in_sql_returns_closed_witness :
  exists w',
    store_data_in_sql (lib := iso_library)
      (rejecting_environment 2 three_loans) three_loans DB_CONNECTION
      fresh_world = (Ok tt, w')
    /\ conn w' = None
    /\ zip_on_disk w' = false
    /\ (table w' = [] \/ table w' = [] ++ batch_params
                                            (lib := iso_library)
                                            (rows three_loans)).
Proof.
  apply (store_data_in_sql_returns_closed (lib := iso_library)
           (rejecting_environment 2 three_loans) three_loans DB_CONNECTION
           fresh_world).
  reflexivity.
Defined.

Lemma store_data_in_sql_skips_dropped_row_witness :
  exists w' line,
    store_data_in_sql (lib := iso_library)
      (plain_environment mixed_frame) mixed_frame DB_CONNECTION fresh_world
      = (Ok tt, w')
    /\ table w' = [] ++ batch_params (lib := iso_library) [loan_row]
                    ++ batch_params (lib := iso_library) [loan_row]
    /\ dropped_line (lib := iso_library) bad_id_row = Some line
    /\ line ∈ stdout w'
    /\ last (stdout w') = Some "Data stored successfully.".
Proof.
  apply (store_data_in_sql_skips_dropped_row (lib := iso_library)
           (plain_environment mixed_frame) mixed_frame DB_CONNECTION
           fresh_world [loan_row] bad_id_row [loan_row]).
  - reflexivity.
  - reflexivity.
  - reflexivity.
  - vm_compute. reflexivity.
  - vm_compute. repeat split.
Defined.

Lemma select_columns_keeps_cleaned_rows_witness :
  let narrowed :=
    {| columns := the_columns;
       rows := (fun r => filter (fun kv => kv.1 ∈ the_columns) r)
                 <$> rows wide_frame |} in
  columns narrowed = the_columns
  /\ length (rows narrowed) = length (rows wide_frame)
  /\ batch_params (lib := iso_library) (rows narrowed)
     = batch_params (lib := iso_library) (rows wide_frame).
Proof.
  apply (select_columns_keeps_cleaned_rows (lib := iso_library) wide_frame).
  vm_compute. reflexivity.
Defined.

Lemma main_normal_return_removes_archive_witness :
  zip_on_disk (main (lib := iso_library) corrupt_environment fresh_world).2
  = false.
Proof.
  apply (main_normal_return_removes_archive (lib := iso_library)
           corrupt_environment fresh_world).
  - reflexivity.
  - vm_compute. reflexivity.
Defined.

Lemma main_missing_column_KeyError_witness :
  let E := plain_environment narrow_frame in
  (main (lib := iso_library) E fresh_world).1 = raise KeyError "not in index"
  /\ db_log (main (lib := iso_library) E fresh_world).2 = []
  /\ table (main (lib := iso_library) E fresh_world).2 = []
  /\ zip_on_disk (main (lib := iso_library) E fresh_world).2 = true.
Proof.
  apply (main_missing_column_KeyError (lib := iso_library)
           (plain_environment narrow_frame) fresh_world narrow_frame "Issue").
  - reflexivity.
  - unfold the_columns. do 2 apply list_elem_of_further. apply list_elem_of_here.
  - apply (bool_decide_unpack _). vm_compute. exact I.
  - reflexivity.
Defined.

Lemma main_loads_the_batch_witness :
  exists w',
    main (lib := iso_library) (plain_environment wide_frame) fresh_world
      = (Ok tt, w')
    /\ table w' = [] ++ batch_params (lib := iso_library) (rows wide_frame)
    /\ conn w' = None
    /\ zip_on_disk w' = false
    /\ last (stdout w') = Some "Temporary files cleaned up.".
Proof.
  apply (main_loads_the_batch (lib := iso_library)
           (plain_environment wide_frame) fresh_world wide_frame).
  - reflexivity.
  - reflexivity.
  - reflexivity.
  - intros c Hc. apply elem_of_app. by left.
  - reflexivity.
  - vm_compute. repeat split.
Defined.

End ComplaintsExtra.

(** ** Further properties of the demographics pipeline *)

Module USDemographicsExtra.
Import Py USDemographics USDemographicsTheory USDemographicsCases.

(** *** The structurer *)

Lemma record_loop_rows (items : list json) :
  forall records rows,
    record_loop items records = Ok rows ->
    exists new, rows = records ++ new
      /\ Forall2 (fun record row => flatten_record record = Ok row) items new.
Proof.
  induction items as [|record rest IH]; intros records rows Hloop.
  - cbn in Hloop. injection Hloop as <-. exists []. by rewrite app_nil_r.
  - cbn [record_loop] in Hloop.
    apply bind_Ok in Hloop as (row & Hrow & Hloop).
    destruct (IH _ _ Hloop) as (new & -> & Hall).
    exists (row :: new). split; [by rewrite <- app_assoc|].
    by constructor.
Qed.

(** *** The columns of a row *)

Lemma value_at_empty (path : list string) (k : string) :
  value_at (JObj []) (path ++ [k]) = None.
Proof. by destruct path. Qed.

Lemma dig_value_at (path : list string) (last : string) :
  forall o : json,
    objects_along o path = true ->
    dig o path last = Ok (default JNull (value_at o (path ++ [last]))).
Proof.
  induction path as [|k path IH]; intros o Hobj.
  - destruct o as [| | | | | |items]; try discriminate.
    unfold dig. cbn. by destruct (assoc last items).
  - destruct o as [| | | | | |items]; try discriminate.
    cbn [objects_along] in Hobj. unfold dig in *. rewrite get_chain_cons.
    cbn [app value_at]. destruct (assoc k items) as [o'|]; cbn.
    + by apply IH.
    + by rewrite get_chain_empty.
Qed.

(** X11. A column of a flattened record holds the value stored in the
    record under the path of the column, as it is, and [None] when there is
    no such value. *)
Theorem flatten_record_copies_nested_values (record : json)
    (row : gmap string json) c path last :
  flatten_record record = Ok row ->
  (c, (path, last)) ∈ extraction_paths ->
  row !! c = Some (default JNull (value_at record (path ++ [last]))).
Proof.
  intros Hrow Hin.
  destruct (flatten_record_columns _ _ Hrow _ _ _ Hin) as (v & Hv & ->).
  pose proof (dig_ok record path last) as Hok. rewrite Hv in Hok.
  rewrite (dig_value_at path last record) in Hv by done.
  by injection Hv as <-.
Qed.

Lemma base_info_of_dom (record : json) (m : gmap string json) :
  base_info_of record = Ok m ->
  dom m = (list_to_set base_columns.*1 : gset string).
Proof.
  unfold base_info_of. intros Hm.
  repeat (apply bind_Ok in Hm as (? & _ & Hm)).
  injection Hm as <-.
  rewrite !dom_insert_L, dom_empty_L. cbn. set_solver.
Qed.

Lemma age_group_loop_dom (record : json) (groups : list string) :
  forall m m' : gmap string json,
    age_group_loop record groups m = Ok m' ->
    dom m' = dom m ∪ (list_to_set (groups ≫= group_columns).*1 : gset string).
Proof.
  induction groups as [|g rest IH]; intros m m' Hloop.
  - cbn in *. injection Hloop as <-. by rewrite union_empty_r_L.
  - cbn [age_group_loop] in Hloop.
    apply bind_Ok in Hloop as (gd & _ & Hloop).
    apply bind_Ok in Hloop as (v19 & _ & Hloop).
    apply bind_Ok in Hloop as (v10 & _ & Hloop).
    rewrite (IH _ _ Hloop), !dom_insert_L. cbn [mbind list_bind group_columns
      app fmap list_fmap fst list_to_set foldr].
    apply set_eq. intros x. rewrite !elem_of_union. tauto.
Qed.

Lemma flatten_record_dom (record : json) (row : gmap string json) :
  flatten_record record = Ok row ->
  dom row = (list_to_set extraction_paths.*1 : gset string)
  /\ size row = 47%nat.
Proof.
  unfold flatten_record. intros (base & Hbase & Hloop)%bind_Ok.
  assert (Hdom : dom row = (list_to_set extraction_paths.*1 : gset string)).
  { rewrite (age_group_loop_dom _ _ _ _ Hloop), (base_info_of_dom _ _ Hbase).
    unfold extraction_paths. by rewrite fmap_app, list_to_set_app_L. }
  split; [done|].
  rewrite <- size_dom, Hdom, size_list_to_set by apply extraction_columns_NoDup.
  reflexivity.
Qed.

(** X10. Every row of a frame has the same 47 columns, whatever keys its
    record has. *)
Theorem json_to_dataframe_same_columns (data : json) (frame : DataFrame) :
  json_to_dataframe data = Ok frame ->
  Forall (fun row : gmap string json =>
            dom row = (list_to_set extraction_paths.*1 : gset string)
            /\ size row = 47%nat) frame.
Proof.
  destruct data as [| | | | |items|]; try discriminate.
  cbn [json_to_dataframe]. intros (new & -> & Hall)%record_loop_rows. cbn.
  induction Hall as [|record row items new Hrow _ IH]; [constructor|].
  constructor; [by apply (flatten_record_dom record)|exact IH].
Qed.

(** *** What the structurer raises *)

Lemma bind_Raise {A B} (m : result A) (f : A -> result B) (e : exn) :
  m ≫= f = Raise e -> m = Raise e \/ exists a, m = Ok a /\ f a = Raise e.
Proof.
  destruct m as [a|e']; intros H.
  - right. exists a. split; [reflexivity|exact H].
  - left. cbn in H. by injection H as ->.
Qed.

Lemma py_get_Raise (o : json) (k : string) (d : json) (e : exn) :
  py_get o k d = Raise e -> exn_cls e = AttributeError.
Proof. destruct o; cbn; intros [= <-]; done. Qed.

Lemma get_chain_Raise (path : list string) (e : exn) :
  forall o, get_chain o path = Raise e -> exn_cls e = AttributeError.
Proof.
  induction path as [|k path IH]; intros o; [discriminate|].
  cbn [get_chain]. intros [H|(o' & _ & H)]%bind_Raise.
  - by apply py_get_Raise in H.
  - by apply IH in H.
Qed.

Lemma dig_Raise (o : json) (path : list string) (last : string) (e : exn) :
  dig o path last = Raise e -> exn_cls e = AttributeError.
Proof.
  unfold dig. intros [H|(o' & _ & H)]%bind_Raise.
  - by apply get_chain_Raise in H.
  - by apply py_get_Raise in H.
Qed.

Lemma base_info_of_Raise (record : json) (e : exn) :
  base_info_of record = Raise e -> exn_cls e = AttributeError.
Proof.
  unfold base_info_of. intros H.
  repeat (apply bind_Raise in H as [H|(? & _ & H)];
          [first [by apply py_get_Raise in H | by apply dig_Raise in H]|]).
  discriminate.
Qed.

Lemma age_group_loop_Raise (record : json) (groups : list string) (e : exn) :
  forall m, age_group_loop record groups m = Raise e ->
            exn_cls e = AttributeError.
Proof.
  induction groups as [|g rest IH]; intros m; [discriminate|].
  cbn [age_group_loop]. intros H.
  apply bind_Raise in H as [H|(gd & _ & H)]; [by apply get_chain_Raise in H|].
  apply bind_Raise in H as [H|(v19 & _ & H)]; [by apply py_get_Raise in H|].
  apply bind_Raise in H as [H|(v10 & _ & H)]; [by apply py_get_Raise in H|].
  by apply IH in H.
Qed.

Lemma flatten_record_Raise (record : json) (e : exn) :
  flatten_record record = Raise e -> exn_cls e = AttributeError.
Proof.
  unfold flatten_record. intros [H|(m & _ & H)]%bind_Raise.
  - by apply base_info_of_Raise in H.
  - by apply age_group_loop_Raise in H.
Qed.

Lemma record_loop_Raise (items : list json) (e : exn) :
  forall records, record_loop items records = Raise e ->
                  exn_cls e = AttributeError.
Proof.
  induction items as [|record rest IH]; intros records; [discriminate|].
  cbn [record_loop]. intros [H|(row & _ & H)]%bind_Raise.
  - by apply flatten_record_Raise in H.
  - by apply IH in H.
Qed.

(** *** The persister and the main flow *)

Section Main.
Context (E : environment).

Lemma DB_CONNECTION_string :
  connection_string_of DB_CONNECTION =
    Ok ("mssql+pyodbc://@DR-FOUOTSA\SQLEXPRESS01/DataPipelineDB?"
        +:+ "driver=ODBC+Driver+17+for+SQL+Server&trusted_connection=yes").
Proof. vm_compute. reflexivity. Qed.




(** X13. When the payload is a list of well-shaped records and the bulk
    write succeeds, the main flow returns normally: it prints the path, the
    head of the frame and the success line, and the table holds the frame
    of the payload. *)
Theorem main_writes_the_frame (w : world) (path : string) (items : list json) :
  dataset_download E = Ok path ->
  json_load E (path +:+ "/us_county_demographics.json") = Ok (JList items) ->
  forallb well_shaped items = true ->
  to_sql E = Ok tt ->
  exists frame,
    json_to_dataframe (JList items) = Ok frame
    /\ main E w =
         (Ok tt,
          World (stdout w ++
                   ["Path to dataset files: " +:+ path;
                    head_repr E frame;
                    "Data successfully saved to table: "
                    +:+ "USCountyDemographicsDetailed"])
                (Some frame) (Some frame)
                (sql_writes w ++ [("USCountyDemographicsDetailed", frame)])).
Proof.
  intros Hpath Hload Hshape Hsql.
  pose proof (record_loop_ok items []) as Hok. rewrite Hshape in Hok.
  cbn [json_to_dataframe].
  destruct (record_loop items []) as [frame|] eqn:Hframe; [|discriminate].
  exists frame. split; [done|].
  unfold main, download_dataset, load_json_from_kaggle, try_except, lift,
    load_df, assign_df, save_to_sql, to_sql_replace, print, mbind, prog_bind,
    mret, prog_ret.
  rewrite Hpath, Hload. cbn [json_to_dataframe]. rewrite Hframe. cbn.
  rewrite Hsql. cbn. by rewrite <- !app_assoc.
Qed.

(** X14. When the payload is a list with a record that is not well shaped,
    the [AttributeError] of the structurer is not caught by the
    [except ValueError] of the main flow: it ends the script before the
    persist step, nothing but the path is printed and nothing is written. *)
Theorem main_ill_shaped_record_uncaught (w : world) (path : string)
    (items : list json) :
  dataset_download E = Ok path ->
  json_load E (path +:+ "/us_county_demographics.json") = Ok (JList items) ->
  forallb well_shaped items = false ->
  exists e,
    exn_cls e = AttributeError
    /\ main E w =
         (Raise e,
          World (stdout w ++ ["Path to dataset files: " +:+ path])
                (name_df w) (sql_table w) (sql_writes w)).
Proof.
  intros Hpath Hload Hshape.
  pose proof (record_loop_ok items []) as Hok. rewrite Hshape in Hok.
  destruct (record_loop items []) as [|e] eqn:Hframe; [discriminate|].
  pose proof (record_loop_Raise _ _ _ Hframe) as Hcls.
  exists e. split; [done|].
  unfold main, download_dataset, load_json_from_kaggle, try_except, lift,
    load_df, print, mbind, prog_bind, mret, prog_ret.
  rewrite Hpath, Hload. cbn [json_to_dataframe]. rewrite Hframe. cbn.
  unfold only. rewrite Hcls. by cbn.
Qed.

(** X15. An exception raised by the dataset download or by loading the
    JSON file leaves the main flow as it is: both calls stand outside the
    [try], so nothing is caught and nothing is written. *)
Theorem main_fetch_failure_propagates (w : world) (e : exn) :
  (dataset_download E = Raise e -> main E w = (Raise e, w))
  /\ (forall path,
        dataset_download E = Ok path ->
        json_load E (path +:+ "/us_county_demographics.json") = Raise e ->
        main E w =
          (Raise e,
           World (stdout w ++ ["Path to dataset files: " +:+ path])
                 (name_df w) (sql_table w) (sql_writes w))).
Proof.
  unfold main, download_dataset, load_json_from_kaggle, try_except, lift,
    load_df, print, mbind, prog_bind, mret, prog_ret.
  split.
  - by intros ->.
  - intros path -> Hload. by rewrite Hload.
Qed.

End Main.

Lemma county_frame_Ok :
  json_to_dataframe (JList [county_record; young_record]) = Ok county_frame.
Proof.
  assert (Hok : is_ok (json_to_dataframe (JList [county_record; young_record]))
                = true) by (vm_compute; reflexivity).
  unfold county_frame.
  destruct (json_to_dataframe (JList [county_record; young_record]));
    [reflexivity|discriminate Hok].
Qed.

Lemma county_row_Ok : flatten_record county_record = Ok county_row.
Proof.
  assert (Hok : is_ok (flatten_record county_record) = true)
    by (vm_compute; reflexivity).
  unfold county_row.
  destruct (flatten_record county_record); [reflexivity|discriminate Hok].
Qed.

Lemma json_to_dataframe_same_columns_witness :
  Forall (fun row : gmap string json =>
            dom row = (list_to_set extraction_paths.*1 : gset string)
            /\ size row = 47%nat) county_frame.
Proof.
  apply (json_to_dataframe_same_columns
           (JList [county_record; young_record]) county_frame).
  exact county_frame_Ok.
Defined.

Lemma flatten_record_copies_nested_values_witness :
  county_row !! "median_age_total_2019"
  = Some (default JNull
            (value_at county_record (["median_age"; "total"] ++ ["2019"]))).
Proof.
  apply (flatten_record_copies_nested_values county_record county_row
           "median_age_total_2019" ["median_age"; "total"] "2019").
  - exact county_row_Ok.
  - apply (bool_decide_unpack _). vm_compute. exact I.
Defined.


Lemma main_writes_the_frame_witness :
  exists frame,
    json_to_dataframe (JList [county_record; young_record]) = Ok frame
    /\ main (good_environment (JList [county_record; young_record]))
         fresh_world =
         (Ok tt,
          World ([] ++
                   ["Path to dataset files: " +:+ "/kaggle/input";
                    "<head>";
                    "Data successfully saved to table: "
                    +:+ "USCountyDemographicsDetailed"])
                (Some frame) (Some frame)
                ([] ++ [("USCountyDemographicsDetailed", frame)])).
Proof.
  apply (main_writes_the_frame
           (good_environment (JList [county_record; young_record]))
           fresh_world "/kaggle/input" [county_record; young_record]).
  - reflexivity.
  - reflexivity.
  - vm_compute. reflexivity.
  - reflexivity.
Defined.

Lemma main_ill_shaped_record_uncaught_witness :
  exists e,
    exn_cls e = AttributeError
    /\ main (good_environment (JList [young_record; null_level_record]))
         fresh_world =
         (Raise e,
          World ([] ++ ["Path to dataset files: " +:+ "/kaggle/input"])
                None None []).
Proof.
  apply (main_ill_shaped_record_uncaught
           (good_environment (JList [young_record; null_level_record]))
           fresh_world "/kaggle/input" [young_record; null_level_record]).
  - reflexivity.
  - reflexivity.
  - vm_compute. reflexivity.
Defined.

Lemma main_fetch_failure_propagates_witness :
  main no_dataset_environment fresh_world
    = (raise OSError "dataset not found", fresh_world)
  /\ main no_file_environment fresh_world
     = (raise OSError "No such file or directory",
        World ([] ++ ["Path to dataset files: " +:+ "/kaggle/input"])
              None None []).
Proof.
  split.
  - apply (proj1 (main_fetch_failure_propagates no_dataset_environment
                    fresh_world (Exn OSError "dataset not found"))).
    reflexivity.
  - apply (proj2 (main_fetch_failure_propagates no_file_environment
                    fresh_world (Exn OSError "No such file or directory"))
             "/kaggle/input").
    + reflexivity.
    + reflexivity.
Defined.

End USDemographicsExtra.
